(** * config-manager: the v2 HTTP handlers over the profile store

    A shallow embedding of [internal/http/v2/handlers.go].  The four
    handlers ([getProfiles], [getProfile], [createProfile], [getPlaybook])
    are translated statement by statement.  They call into packages whose
    code is not part of the handler file ([db], [config], [internal]); those
    calls go through the [Backend] interface below, and [memDB] is an
    in-memory implementation of it that follows the written specification
    of the profile store, the diff engine and the playbook generator.

    Conventions.
    - Go's [int]/[int64] are [Z]; [int] is taken to be 64 bits wide, so the
      conversion [int(i)] of an [int64] is the identity.
    - A Go [string] is a [string] (a sequence of bytes).
    - A Go [(T, error)] result is a [result T]; a handler that writes a
      response and returns is a function to [option Response * Store],
      [None] meaning that the handler returned without rendering anything.
    - Logging and the [instrumentation] counters are write-only side
      channels of the handlers and are left out. *)

From stdpp Require Import base gmap strings list sorting.
From Stdlib Require Import ZArith Lia Ascii.

Open Scope Z_scope.

(** ** Errors and results *)

(** The error values the handlers can meet: the two failure kinds of
    [strconv], a failed body read, a failed JSON decoding, and the error
    taxonomy of the store and the generator. *)
Inductive error : Type :=
| ErrSyntax
| ErrRange
| ErrBodyRead
| ErrJSON
| ValidationError
| NotFoundError
| ConflictError
| TransientDependencyError
| SchemaError
| EmptyDiffError.

#[global] Instance error_eq_dec : EqDecision error.
Proof. solve_decision. Defined.

Definition result (A : Type) : Type := (error + A)%type.
Abbreviation Err e := (inl e) (only parsing).
Abbreviation Ok a := (inr a) (only parsing).

(** ** strconv.ParseInt(s, 10, 64) *)

Module strconv.

Definition maxUint64 : Z := 2 ^ 64 - 1.

Definition digit (c : Ascii.ascii) : option Z :=
  let n := Z.of_N (Ascii.N_of_ascii c) in
  if (48 <=? n) && (n <=? 57) then Some (n - 48) else None.

(** The digit loop of [ParseUint] for base 10 and 64 bits, with the
    accumulator a [uint64]: [cutoff] is the first value whose product
    with the base overflows. *)
Fixpoint parseDigits (s : string) (n : Z) : result Z :=
  match s with
  | EmptyString => Ok n
  | String c s' =>
      match digit c with
      | None => Err ErrSyntax
      | Some d =>
          let cutoff := maxUint64 / 10 + 1 in
          if cutoff <=? n then Err ErrRange
          else
            let n10 := (n * 10) mod 2 ^ 64 in
            let n1 := (n10 + d) mod 2 ^ 64 in
            if (n1 <? n10) || (maxUint64 <? n1) then Err ErrRange
            else parseDigits s' n1
      end
  end.

Definition ParseUint (s : string) : result Z :=
  match s with
  | EmptyString => Err ErrSyntax
  | _ => parseDigits s 0
  end.

Definition ParseInt (s : string) : result Z :=
  match s with
  | EmptyString => Err ErrSyntax
  | String c rest =>
      let neg := bool_decide (c = "-"%char) in
      let s1 := if bool_decide (c = "+"%char) || neg then rest else s in
      let cutoff := 2 ^ 63 in
      let checked (un : Z) : result Z :=
        if negb neg && (cutoff <=? un) then Err ErrRange
        else if neg && (cutoff <? un) then Err ErrRange
        else Ok (if neg then - un else un) in
      match ParseUint s1 with
      | Err ErrRange => checked maxUint64
      | Err e => Err e
      | Ok un => checked un
      end
  end.

End strconv.

(** ** Profiles *)

(** Modelled from the spec: the declaration of [db.Profile] is not part of
    the handler file.  The four toggles are the fields the handlers read and
    write; the identity ("opaque version ID ..., organization ID, owning
    account identifier") and "createdAt" are the fields the specification
    lists for a profile version. *)
Record Profile : Type := mkProfile {
  ID : string;
  OrgID : string;
  AccountID : string;
  CreatedAt : Z;
  Active : bool;
  Insights : bool;
  Remediations : bool;
  Compliance : bool
}.

#[global] Instance Profile_eq_dec : EqDecision Profile.
Proof. solve_decision. Defined.

(** What the Go runtime hands out during one request: the value of
    [uuid.New()], the value of [time.Now()], and the order in which the
    two-element map literal of [getProfiles] is ranged over. *)
Record Runtime : Type := mkRuntime {
  uuid_New : string;
  time_Now : Z;
  limit_first : bool
}.

(** ** Requests and responses *)

(** [url.Values]: [Has] tests the key, [Get] returns the first value of the
    key or the empty string. *)
Module url.

Definition Has (v : gmap string (list string)) (key : string) : bool :=
  bool_decide (is_Some (v !! key)).

Definition Get (v : gmap string (list string)) (key : string) : string :=
  match v !! key with
  | Some (x :: _) => x
  | _ => ""
  end.

End url.

(** The outcome of [io.ReadAll(r.Body)] followed by [json.Unmarshal] into
    a [db.Profile]. *)
Inductive RequestBody : Type :=
| BodyUnreadable
| BodyMalformed
| BodyProfile (requested : Profile).

Record Request : Type := mkRequest {
  identity_OrgID : string;
  identity_AccountNumber : string;
  Query : gmap string (list string);
  URLParam_id : string;
  Body : RequestBody
}.

(** The anonymous struct [getProfiles] answers with. *)
Record ProfileList : Type := mkProfileList {
  Count : Z;
  Limit : Z;
  Offset : Z;
  Total : Z;
  Results : list Profile
}.

Inductive Payload : Type :=
| Plain (msg : string) (cause : option error)
| JSONList (l : ProfileList)
| JSONProfile (p : Profile)
| Raw (contentType : string) (data : string).

Record Response : Type := mkResponse {
  status : Z;
  payload : Payload
}.

Module http.
Definition StatusOK : Z := 200.
Definition StatusCreated : Z := 201.
Definition StatusNotModified : Z := 304.
Definition StatusBadRequest : Z := 400.
Definition StatusInternalServerError : Z := 500.
End http.

Module render.
Definition RenderPlain (code : Z) (msg : string) (cause : option error) : option Response :=
  Some (mkResponse code (Plain msg cause)).
Definition RenderJSONList (code : Z) (l : ProfileList) : option Response :=
  Some (mkResponse code (JSONList l)).
Definition RenderJSON (code : Z) (p : Profile) : option Response :=
  Some (mkResponse code (JSONProfile p)).
Definition RenderRaw (code : Z) (contentType data : string) : option Response :=
  Some (mkResponse code (Raw contentType data)).
End render.

(** ** Diff engine and playbook generator *)

(** Modelled from the spec: the declarative schema, "a stable list of (field
    name, default value, task template) triples, iterated in schema order".
    The diff engine and the generator are not part of the handler file. *)
Record SchemaEntry : Type := mkSchemaEntry {
  field_name : string;
  default_value : string;
  task_template : string
}.

(** Modelled from the spec: a transition "(field, fromValue, toValue)" of a
    diff between two state maps. *)
Record Transition : Type := mkTransition {
  field : string;
  fromValue : string;
  toValue : string
}.

#[global] Instance Transition_eq_dec : EqDecision Transition.
Proof. solve_decision. Defined.

(** Modelled from the spec: a playbook is "a rendered, ordered sequence of
    remediation tasks derived 1:1 from a non-empty Diff, plus host-targeting
    metadata". *)
Record Task : Type := mkTask {
  template : string;
  value : string
}.

Record Playbook : Type := mkPlaybook {
  targets : string;
  tasks : list Task
}.

Section DiffEngine.

Variable schema : list SchemaEntry.
Variable hosts : string.

(** Modelled from the spec: "a field present in the schema but absent from
    a state map is treated as a defined default, never as missing". *)
Definition valueIn (m : gmap string string) (e : SchemaEntry) : string :=
  default (default_value e) (m !! field_name e).

Definition transition (fromState toState : gmap string string) (e : SchemaEntry)
  : option Transition :=
  let a := valueIn fromState e in
  let b := valueIn toState e in
  if decide (a = b) then None else Some (mkTransition (field_name e) a b).

(** Modelled from the spec: [diff(fromState, toState)] is the "ordered
    sequence of transitions, built by iterating the fixed known-field
    schema in a stable, declared order". *)
Definition diff (fromState toState : gmap string string) : list Transition :=
  omap (transition fromState toState) schema.

(** Modelled from the spec: the "fixed lookup table from field name to
    task template". *)
Fixpoint templateOf (entries : list SchemaEntry) (f : string) : option string :=
  match entries with
  | [] => None
  | e :: entries' =>
      if decide (field_name e = f) then Some (task_template e)
      else templateOf entries' f
  end.

(** Modelled from the spec: "each transition maps to exactly one task";
    "an unknown field name is a fatal SchemaError". *)
Fixpoint tasksOf (d : list Transition) : result (list Task) :=
  match d with
  | [] => Ok []
  | t :: d' =>
      match templateOf schema (field t) with
      | None => Err SchemaError
      | Some tpl =>
          match tasksOf d' with
          | Err e => Err e
          | Ok ts => Ok (mkTask tpl (toValue t) :: ts)
          end
      end
  end.

(** Modelled from the spec: [generate(diff)] "fails with EmptyDiffError if
    the diff has zero transitions". *)
Definition generate (d : list Transition) : result Playbook :=
  match d with
  | [] => Err EmptyDiffError
  | _ :: _ =>
      match tasksOf d with
      | Err e => Err e
      | Ok ts => Ok (mkPlaybook hosts ts)
      end
  end.

End DiffEngine.

(** Modelled from the spec: the output of the generator "is
    textual/structured data": one line for the targets, one per task. *)
Definition newline : string := String "010"%char EmptyString.

Definition renderTask (t : Task) : string :=
  "- " +:+ template t +:+ ": " +:+ value t +:+ newline.

Definition renderPlaybook (p : Playbook) : string :=
  "hosts: " +:+ targets p +:+ newline +:+ "tasks:" +:+ newline
  +:+ foldr (fun t acc => renderTask t +:+ acc) "" (tasks p).

(** ** The [db] package: profile constructors *)

Module db.

(** Modelled from the spec: the known fields of the state map are the three
    toggles of a profile, in the order the handlers assign them; an absent
    toggle is off. *)
Definition knownSchema : list SchemaEntry :=
  [ mkSchemaEntry "insights" "false" "insights";
    mkSchemaEntry "remediations" "false" "remediations";
    mkSchemaEntry "compliance" "false" "compliance" ].

(** Modelled from the spec: a toggle in a state map reads ["true"] or
    ["false"], as in the transition "(remediations, false, true)". *)
Definition showToggle (b : bool) : string := if b then "true" else "false".

Definition toggle (state : gmap string string) (key : string) : bool :=
  bool_decide (state !! key = Some "true").

(** Modelled from the spec: a synthesized profile has a generated version
    ID, the organization and account of the caller, the creation time, and
    the toggles of the given state map; it is enabled. *)
Definition NewProfile (rt : Runtime) (orgID accountID : string)
    (state : gmap string string) : Profile :=
  {| ID := uuid_New rt;
     OrgID := orgID;
     AccountID := accountID;
     CreatedAt := time_Now rt;
     Active := true;
     Insights := toggle state "insights";
     Remediations := toggle state "remediations";
     Compliance := toggle state "compliance" |}.

(** Modelled from the spec: "copy-on-write from the prior current version":
    a copy with a fresh version ID and creation time. *)
Definition CopyProfile (rt : Runtime) (from : Profile) : Profile :=
  {| ID := uuid_New rt;
     OrgID := OrgID from;
     AccountID := AccountID from;
     CreatedAt := time_Now rt;
     Active := Active from;
     Insights := Insights from;
     Remediations := Remediations from;
     Compliance := Compliance from |}.

(** Modelled from the spec: the "state" of a profile, "the logical state
    map that diffs are computed against". *)
Definition StateConfig (p : Profile) : gmap string string :=
  <["insights" := showToggle (Insights p)]>
    (<["remediations" := showToggle (Remediations p)]>
       (<["compliance" := showToggle (Compliance p)]> ∅)).

(** Modelled from the spec: the "diff/equality check" that detects an
    update identical to the current profile: the same master switch and no
    transition between the two state maps. *)
Definition Equal (p q : Profile) : bool :=
  bool_decide (Active p = Active q)
  && bool_decide (diff knownSchema (StateConfig p) (StateConfig q) = []).

End db.

(** ** The services the handlers call *)

(** The store operations of package [db], the configured default state
    ([config.DefaultConfig.ServiceConfig] after [json.Unmarshal]) and
    [internal.GeneratePlaybook].  Reads return a result; [InsertProfile] and
    [GetOrInsertCurrentProfile] also return the store they leave behind. *)
Record Backend : Type := mkBackend {
  Store : Type;
  ServiceConfig : result (gmap string string);
  CountProfiles : Store -> string -> result Z;
  InsertProfile : Store -> Profile -> option error * Store;
  GetProfiles : Store -> string -> string -> Z -> Z -> result (list Profile);
  GetOrInsertCurrentProfile : Store -> string -> Profile -> result Profile * Store;
  GetProfile : Store -> string -> result Profile;
  GetCurrentProfile : Store -> string -> result Profile;
  GeneratePlaybook : gmap string string -> result string
}.

(** ** The handlers *)

Section Handlers.

Variable B : Backend.

(** The variable a key of the map literal [{"limit": &limit, "offset":
    &offset}] points to. *)
Inductive PagingVar : Type := VarLimit | VarOffset.

Definition pagingVars (rt : Runtime) : list (string * PagingVar) :=
  if limit_first rt
  then [("limit", VarLimit); ("offset", VarOffset)]
  else [("offset", VarOffset); ("limit", VarLimit)].

(** The loop over the two paging parameters: the first key that is
    present and does not parse ends the request. *)
Fixpoint parsePaging (q : gmap string (list string))
    (vars : list (string * PagingVar)) (limit offset : Z)
  : (string * error) + (Z * Z) :=
  match vars with
  | [] => inr (limit, offset)
  | (key, val) :: vars' =>
      if url.Has q key then
        match strconv.ParseInt (url.Get q key) with
        | Err err => inl (key, err)
        | Ok i =>
            match val with
            | VarLimit => parsePaging q vars' i offset
            | VarOffset => parsePaging q vars' limit i
            end
        end
      else parsePaging q vars' limit offset
  end.

(** The tail of [getProfiles]: fetch the page and render the answer. *)
Definition renderProfiles (r : Request) (sortBy : string) (limit offset total : Z)
    (st : Store B) : option Response * Store B :=
  match GetProfiles B st (identity_OrgID r) sortBy limit offset with
  | Err err =>
      (render.RenderPlain http.StatusInternalServerError "cannot get profiles" (Some err), st)
  | Ok profiles =>
      (render.RenderJSONList http.StatusOK
         {| Count := Z.of_nat (List.length profiles);
            Limit := limit;
            Offset := offset;
            Total := total;
            Results := profiles |}, st)
  end.

Definition getProfiles (rt : Runtime) (r : Request) (st : Store B)
  : option Response * Store B :=
  let sortBy :=
    if url.Has (Query r) "sort_by" then url.Get (Query r) "sort_by"
    else "created_at:desc" in
  match parsePaging (Query r) (pagingVars rt) 0 0 with
  | inl (key, err) =>
      (render.RenderPlain http.StatusBadRequest
         ("cannot parse '" +:+ key +:+ "'") (Some err), st)
  | inr (limit, offset) =>
      match CountProfiles B st (identity_OrgID r) with
      | Err err =>
          (render.RenderPlain http.StatusInternalServerError
             "cannot count profiles" (Some err), st)
      | Ok total =>
          if total =? 0 then
            match ServiceConfig B with
            | Err _ => (None, st)
            | Ok defaultState =>
                let newProfile :=
                  db.NewProfile rt (identity_OrgID r) (identity_AccountNumber r)
                    defaultState in
                match InsertProfile B st newProfile with
                | (Some err, st1) =>
                    (render.RenderPlain http.StatusInternalServerError
                       "cannot insert new profile" (Some err), st1)
                | (None, st1) =>
                    renderProfiles r sortBy limit offset (total + 1) st1
                end
            end
          else renderProfiles r sortBy limit offset total st
      end
  end.

Definition getProfile (rt : Runtime) (r : Request) (st : Store B)
  : option Response * Store B :=
  let profileID := URLParam_id r in
  if decide (profileID = "") then
    (render.RenderPlain http.StatusBadRequest "cannot get ID from URL" None, st)
  else if decide (profileID = "current") then
    match ServiceConfig B with
    | Err err =>
        (render.RenderPlain http.StatusInternalServerError
           "cannot unmarshal statemap" (Some err), st)
    | Ok statemap =>
        match GetOrInsertCurrentProfile B st (identity_OrgID r)
                (db.NewProfile rt (identity_OrgID r) (identity_AccountNumber r) statemap)
        with
        | (Err err, st1) =>
            (render.RenderPlain http.StatusInternalServerError
               "cannot get current profile for org" (Some err), st1)
        | (Ok profile, st1) => (render.RenderJSON http.StatusOK profile, st1)
        end
    end
  else
    match GetProfile B st profileID with
    | Err err =>
        (render.RenderPlain http.StatusInternalServerError
           "cannot get profile with ID" (Some err), st)
    | Ok profile => (render.RenderJSON http.StatusOK profile, st)
    end.

(** The four assignments after [db.CopyProfile]. *)
Definition override (newProfile requestedProfile : Profile) : Profile :=
  {| ID := ID newProfile;
     OrgID := OrgID newProfile;
     AccountID := AccountID newProfile;
     CreatedAt := CreatedAt newProfile;
     Active := Active requestedProfile;
     Insights := Insights requestedProfile;
     Remediations := Remediations requestedProfile;
     Compliance := Compliance requestedProfile |}.

Definition createProfile (rt : Runtime) (r : Request) (st : Store B)
  : option Response * Store B :=
  match Body r with
  | BodyUnreadable =>
      (render.RenderPlain http.StatusBadRequest
         "cannot read request body" (Some ErrBodyRead), st)
  | BodyMalformed =>
      (render.RenderPlain http.StatusInternalServerError
         "cannot unmarshal data" (Some ErrJSON), st)
  | BodyProfile requestedProfile =>
      match GetCurrentProfile B st (identity_OrgID r) with
      | Err err =>
          (render.RenderPlain http.StatusInternalServerError
             "cannot get current profile" (Some err), st)
      | Ok currentProfile =>
          let newProfile :=
            override (db.CopyProfile rt currentProfile) requestedProfile in
          if db.Equal newProfile currentProfile then
            (render.RenderJSON http.StatusNotModified currentProfile, st)
          else
            match InsertProfile B st newProfile with
            | (Some err, st1) =>
                (render.RenderPlain http.StatusInternalServerError
                   "cannot insert new profile" (Some err), st1)
            | (None, st1) => (render.RenderJSON http.StatusCreated newProfile, st1)
            end
      end
  end.

Definition getPlaybook (r : Request) (st : Store B) : option Response * Store B :=
  if negb (url.Has (Query r) "profile_id") then
    (render.RenderPlain http.StatusBadRequest
       "cannot get profile_id query parameter" None, st)
  else
    let profileID := url.Get (Query r) "profile_id" in
    match GetProfile B st profileID with
    | Err err =>
        (render.RenderPlain http.StatusInternalServerError
           "cannot get profile with ID" (Some err), st)
    | Ok profile =>
        match GeneratePlaybook B (db.StateConfig profile) with
        | Err err =>
            (render.RenderPlain http.StatusInternalServerError
               "cannot generate playbook" (Some err), st)
        | Ok playbook =>
            (render.RenderRaw http.StatusOK "application/x-yaml" playbook, st)
        end
    end.

End Handlers.

(** ** An in-memory profile store *)

Module memstore.

(** Modelled from the spec: the profile store "persists immutable profile
    versions per organization".  The package [db] is not part of the handler
    file; the store is the sequence of versions in the order they were
    persisted. *)
Definition profilesOf (st : list Profile) (orgID : string) : list Profile :=
  filter (fun p => OrgID p = orgID) st.

(** Modelled from the spec: [count(orgID)] is the "number of profile versions
    for an org". *)
Definition CountProfiles (st : list Profile) (orgID : string) : result Z :=
  Ok (Z.of_nat (List.length (profilesOf st orgID))).

(** Modelled from the spec: the "required identity fields" are the version
    ID, the organization ID and the account identifier; one is missing when
    it is empty. *)
Definition missingIdentity (p : Profile) : bool :=
  bool_decide (ID p = "") || bool_decide (OrgID p = "") || bool_decide (AccountID p = "").

Definition knownID (st : list Profile) (id : string) : bool :=
  bool_decide (id ∈ ID <$> st).

(** Modelled from the spec: [create(profile)] "persists a new immutable
    version; fails with ValidationError if required identity fields are
    missing, or ConflictError if the store detects a uniqueness violation"
    (here: a version ID that is already stored). *)
Definition InsertProfile (st : list Profile) (p : Profile) : option error * list Profile :=
  if missingIdentity p then (Some ValidationError, st)
  else if knownID st (ID p) then (Some ConflictError, st)
  else (None, st ++ [p]).

Definition newer (best : option Profile) (p : Profile) : option Profile :=
  match best with
  | None => Some p
  | Some b => if CreatedAt b <=? CreatedAt p then Some p else Some b
  end.

(** Modelled from the spec: the current version is "the most recently
    created version for that org" (of two versions with the same creation
    time, the one persisted later). *)
Definition currentOf (st : list Profile) (orgID : string) : option Profile :=
  foldl newer None (profilesOf st orgID).

Definition GetCurrentProfile (st : list Profile) (orgID : string) : result Profile :=
  match currentOf st orgID with
  | None => Err NotFoundError
  | Some p => Ok p
  end.

(** Modelled from the spec: [getByID(profileID)] is the "Profile or a not
    found error". *)
Definition GetProfile (st : list Profile) (profileID : string) : result Profile :=
  match list_find (fun p => ID p = profileID) st with
  | None => Err NotFoundError
  | Some (_, p) => Ok p
  end.

(** Modelled from the spec: [getCurrent(orgID)] is the "current Profile; if
    none exists, synthesizes and persists a default Profile ... and returns
    it", as one insert-if-absent operation of the store. *)
Definition GetOrInsertCurrentProfile (st : list Profile) (orgID : string) (p : Profile)
  : result Profile * list Profile :=
  match currentOf st orgID with
  | Some c => (Ok c, st)
  | None =>
      match InsertProfile st p with
      | (Some e, st1) => (Err e, st1)
      | (None, st1) => (Ok p, st1)
      end
  end.

Definition olderEq (p q : Profile) : Prop := CreatedAt p <= CreatedAt q.

#[global] Instance olderEq_dec p q : Decision (olderEq p q).
Proof. unfold olderEq. apply _. Defined.

(** Modelled from the spec: "list profiles for the caller's org (paginated,
    sortable)": the versions of the org by creation time, ascending for
    ["created_at:asc"] and descending otherwise, after skipping [offset]
    versions and cut to [limit] versions when these are positive. *)
Definition GetProfiles (st : list Profile) (orgID sortBy : string) (limit offset : Z)
  : result (list Profile) :=
  let ascending := merge_sort olderEq (profilesOf st orgID) in
  let ordered := if decide (sortBy = "created_at:asc") then ascending else reverse ascending in
  let skipped := if 0 <? offset then drop (Z.to_nat offset) ordered else ordered in
  Ok (if 0 <? limit then take (Z.to_nat limit) skipped else skipped).

(** Modelled from the spec: the playbook for a state map is generated from
    its diff against "the default/empty state" and rendered as text. *)
Definition GeneratePlaybook (state : gmap string string) : result string :=
  match generate db.knownSchema "localhost" (diff db.knownSchema ∅ state) with
  | Err e => Err e
  | Ok pb => Ok (renderPlaybook pb)
  end.

End memstore.

(** The handlers' services over the in-memory store, for a given outcome of
    decoding the configured default state. *)
Definition memDB (cfg : result (gmap string string)) : Backend :=
  {| Store := list Profile;
     ServiceConfig := cfg;
     CountProfiles := memstore.CountProfiles;
     InsertProfile := memstore.InsertProfile;
     GetProfiles := memstore.GetProfiles;
     GetOrInsertCurrentProfile := memstore.GetOrInsertCurrentProfile;
     GetProfile := memstore.GetProfile;
     GetCurrentProfile := memstore.GetCurrentProfile;
     GeneratePlaybook := memstore.GeneratePlaybook |}.

(** The value of a paging parameter as [getProfiles] reads it: [0] when the
    key is absent, the parsed integer when it parses, nothing otherwise. *)
Definition queryInt (q : gmap string (list string)) (key : string) : option Z :=
  if url.Has q key then
    match strconv.ParseInt (url.Get q key) with
    | Err _ => None
    | Ok i => Some i
    end
  else Some 0.

Definition is4xx (code : Z) : bool := (400 <=? code) && (code <? 500).

(** ** [getProfiles] one store operation at a time *)

(** The places where a run of [getProfiles] can stand between two calls of
    the store: before [db.CountProfiles], before [db.InsertProfile] (the
    count was zero), before [db.GetProfiles], and after the return. *)
Inductive ListingState : Type :=
| Counting
| Inserting (sortBy : string) (limit offset total : Z) (newProfile : Profile)
| Fetching (sortBy : string) (limit offset total : Z)
| Returned (resp : option Response).

Section Steps.

Variable B : Backend.

Definition stepProfiles (rt : Runtime) (r : Request) (pc : ListingState) (st : Store B)
  : ListingState * Store B :=
  match pc with
  | Counting =>
      let sortBy :=
        if url.Has (Query r) "sort_by" then url.Get (Query r) "sort_by"
        else "created_at:desc" in
      match parsePaging (Query r) (pagingVars rt) 0 0 with
      | inl (key, err) =>
          (Returned (render.RenderPlain http.StatusBadRequest
                       ("cannot parse '" +:+ key +:+ "'") (Some err)), st)
      | inr (limit, offset) =>
          match CountProfiles B st (identity_OrgID r) with
          | Err err =>
              (Returned (render.RenderPlain http.StatusInternalServerError
                           "cannot count profiles" (Some err)), st)
          | Ok total =>
              if total =? 0 then
                match ServiceConfig B with
                | Err _ => (Returned None, st)
                | Ok defaultState =>
                    (Inserting sortBy limit offset total
                       (db.NewProfile rt (identity_OrgID r) (identity_AccountNumber r)
                          defaultState), st)
                end
              else (Fetching sortBy limit offset total, st)
          end
      end
  | Inserting sortBy limit offset total newProfile =>
      match InsertProfile B st newProfile with
      | (Some err, st1) =>
          (Returned (render.RenderPlain http.StatusInternalServerError
                       "cannot insert new profile" (Some err)), st1)
      | (None, st1) => (Fetching sortBy limit offset (total + 1), st1)
      end
  | Fetching sortBy limit offset total =>
      let '(resp, st1) := renderProfiles B r sortBy limit offset total st in
      (Returned resp, st1)
  | Returned resp => (Returned resp, st)
  end.

(** A run of one request alone: [n] steps in a row. *)
Fixpoint runProfiles (n : nat) (rt : Runtime) (r : Request) (pc : ListingState)
    (st : Store B) : ListingState * Store B :=
  match n with
  | O => (pc, st)
  | S n' =>
      let '(pc1, st1) := stepProfiles rt r pc st in
      runProfiles n' rt r pc1 st1
  end.

(** Two requests served concurrently on one store: the schedule says which
    of the two takes the next step ([true] for the first). *)
Fixpoint interleave (sched : list bool)
    (rtA : Runtime) (rA : Request) (rtB : Runtime) (rB : Request)
    (a b : ListingState) (st : Store B) : ListingState * ListingState * Store B :=
  match sched with
  | [] => (a, b, st)
  | true :: sched' =>
      let '(a1, st1) := stepProfiles rtA rA a st in
      interleave sched' rtA rA rtB rB a1 b st1
  | false :: sched' =>
      let '(b1, st1) := stepProfiles rtB rB b st in
      interleave sched' rtA rA rtB rB a b1 st1
  end.

End Steps.

(** ** Sample requests *)

(** The only change a request may make to the stored versions: none, or one
    more version after those already stored. *)
Definition appendsAtMostOne (st st' : list Profile) : Prop :=
  st' = st \/ exists p, st' = st ++ [p].

(** A default state map as the deployment configures it. *)
Definition defaultState : gmap string string :=
  <["insights" := "true"]> (<["remediations" := "true"]> (<["compliance" := "true"]> ∅)).

Definition rt1 : Runtime := mkRuntime "v1" 100 true.
Definition rt2 : Runtime := mkRuntime "v2" 200 false.

Definition listRequest (q : gmap string (list string)) : Request :=
  mkRequest "org1" "acct1" q "" BodyUnreadable.

Definition fetchRequest (id : string) : Request :=
  mkRequest "org1" "acct1" ∅ id BodyUnreadable.

Definition updateRequest (org : string) (requested : Profile) : Request :=
  mkRequest org "acct1" ∅ "" (BodyProfile requested).

Definition playbookRequest (q : gmap string (list string)) : Request :=
  mkRequest "org1" "acct1" q "" BodyUnreadable.

Definition stored1 : Profile :=
  mkProfile "v0" "org1" "acct1" 50 true true false true.

(** A request that is wrong in every way a caller can get it wrong: a
    [limit] that is no number, no [id], no [profile_id], a body that cannot
    be read. *)
Definition badRequest : Request :=
  mkRequest "org1" "acct1" {["limit" := ["abc"]]} "" BodyUnreadable.

(** A request for a profile that is not stored. *)
Definition lookupRequest : Request :=
  mkRequest "org1" "acct1" {["profile_id" := ["nope"]]} "nope" BodyUnreadable.


Definition pageRequest : Request :=
  listRequest {["limit" := ["5"]; "offset" := ["0"]]}.

(** Two decoded bodies that switch remediations on and disagree on every
    field a caller cannot set. *)
Definition plainBody : Profile :=
  mkProfile "" "" "" 0 true true true true.

Definition tamperedBody : Profile :=
  mkProfile "v9" "org2" "acct2" 999 true true true true.

Definition created1 : Profile :=
  mkProfile "v1" "org1" "acct1" 100 true true true true.

(** A stored profile with every toggle off: its state map is the default
    state. *)
Definition allOff : Profile :=
  mkProfile "v0" "org1" "acct1" 50 true false false false.

(** ** What a handler reads of a request, and what it answers *)

(** The [sortBy] of [getProfiles]: the first [sort_by] value of the query,
    ["created_at:desc"] when the query has none. *)
Definition sortByOf (r : Request) : string :=
  if url.Has (Query r) "sort_by" then url.Get (Query r) "sort_by"
  else "created_at:desc".

(** Two queries are read alike at a key: [Has] and [Get] agree. *)
Definition sameParam (q1 q2 : gmap string (list string)) (key : string) : Prop :=
  url.Has q1 key = url.Has q2 key /\ url.Get q1 key = url.Get q2 key.

(** A paging parameter is present and is not a 64-bit decimal integer. *)
Definition pagingFault (r : Request) : Prop :=
  queryInt (Query r) "limit" = None \/ queryInt (Query r) "offset" = None.

(** An answer made by [render.RenderPlain] with one of the two error
    statuses the handlers use. *)
Definition errorAnswer (resp : Response) : Prop :=
  (status resp = http.StatusBadRequest \/ status resp = http.StatusInternalServerError)
  /\ exists msg cause, payload resp = Plain msg cause.

(** A handler's outcome is an answer with the given status. *)
Definition answers {S : Type} (outcome : option Response * S) (code : Z) : Prop :=
  exists resp, outcome.1 = Some resp /\ status resp = code.

(** The range of Go's [int64]. *)
Definition inInt64 (z : Z) : Prop := - 2 ^ 63 <= z < 2 ^ 63.

(** The number of steps a schedule gives to one of the two requests. *)
Definition stepsOf (who : bool) (sched : list bool) : nat :=
  length (filter (fun b => b = who) sched).

(** A request that, from the place [pc] of its run and the store [st], never
    changes the store, however many steps it is given. *)
Definition readOnlyFrom (B : Backend) (rt : Runtime) (r : Request)
    (pc : ListingState) (st : Store B) : Prop :=
  forall n, (runProfiles B n rt r pc st).2 = st.

(** Sample requests for the properties below. *)
Definition otherTenantRequest : Request :=
  mkRequest "org2" "acct2" {["limit" := ["7"]]} "v0" (BodyProfile tamperedBody).

Definition byIDRequest : Request :=
  mkRequest "org1" "acct1" ∅ "v0" BodyUnreadable.

Definition bothBadRequest : Request :=
  listRequest {["limit" := ["abc"]; "offset" := ["9223372036854775808"]]}.

Definition repeatedRequest : Request :=
  mkRequest "org1" "acct1"
    {["limit" := ["5"; "junk"]; "offset" := ["0"]; "page" := ["3"]]} "ignored"
    (BodyProfile plainBody).

(** The run of [rt1] with the other order of the paging parameters. *)
Definition rt1swapped : Runtime := mkRuntime "v1" 100 false.

Definition otherPlaybookRequest : Request :=
  mkRequest "org2" "acct2" {["profile_id" := ["v0"; "v1"]; "limit" := ["x"]]} "x"
    BodyMalformed.

Definition pageAnswer : Response :=
  mkResponse http.StatusOK (JSONList (mkProfileList 1 5 0 1 [stored1])).

Definition playbookAnswer : Response :=
  mkResponse http.StatusOK
    (Raw "application/x-yaml"
       (renderPlaybook
          (mkPlaybook "localhost" [mkTask "insights" "true"; mkTask "compliance" "true"]))).

(** * Properties *)

(** ** The diff engine *)

Section DiffFacts.

Variable schema : list SchemaEntry.
Variable hosts : string.

Lemma transition_self (S : gmap string string) (e : SchemaEntry) :
  transition S S e = None.
Proof. unfold transition. by rewrite decide_True. Qed.

Lemma omap_transition_self (S : gmap string string) (entries : list SchemaEntry) :
  omap (transition S S) entries = [].
Proof.
  induction entries as [|e entries IH]; [done|].
  cbn. by rewrite transition_self.
Qed.

(** C7: for every state map [S], the diff of [S] against itself has no
    transition, whatever the schema. *)
Theorem diff_self (S : gmap string string) : diff schema S S = [].
Proof. apply omap_transition_self. Qed.



End DiffFacts.


(** ** The handlers, for any implementation of the services *)

Section HandlerFacts.

Variable B : Backend.

Lemma parsePaging_ok (rt : Runtime) (q : gmap string (list string)) (limit offset : Z) :
  parsePaging q (pagingVars rt) 0 0 = inr (limit, offset)
  <-> queryInt q "limit" = Some limit /\ queryInt q "offset" = Some offset.
Proof.
  unfold pagingVars, queryInt.
  destruct (limit_first rt); cbn [parsePaging];
    destruct (url.Has q "limit"), (url.Has q "offset");
    destruct (strconv.ParseInt (url.Get q "limit")) as [e1|i1];
    destruct (strconv.ParseInt (url.Get q "offset")) as [e2|i2];
    (split; [intros ?|intros [? ?]]; by simplify_eq).
Qed.

Lemma parsePaging_fails (rt : Runtime) (q : gmap string (list string)) :
  (queryInt q "limit" = None \/ queryInt q "offset" = None)
  <-> exists key err, parsePaging q (pagingVars rt) 0 0 = inl (key, err).
Proof.
  unfold pagingVars, queryInt.
  destruct (limit_first rt); cbn [parsePaging];
    destruct (url.Has q "limit"), (url.Has q "offset");
    destruct (strconv.ParseInt (url.Get q "limit")) as [e1|i1];
    destruct (strconv.ParseInt (url.Get q "offset")) as [e2|i2];
    (split; [intros [?|?]; by eauto|intros (? & ? & ?); by auto]).
Qed.

Lemma renderProfiles_inv (r : Request) (sortBy : string) (limit offset total : Z)
    (st st' : Store B) (resp : Response) :
  renderProfiles B r sortBy limit offset total st = (Some resp, st') ->
  status resp = http.StatusOK ->
  exists profiles,
    GetProfiles B st (identity_OrgID r) sortBy limit offset = Ok profiles
    /\ st' = st
    /\ payload resp = JSONList (mkProfileList (Z.of_nat (length profiles))
                                  limit offset total profiles).
Proof.
  unfold renderProfiles. intros H Hs.
  destruct (GetProfiles B st (identity_OrgID r) sortBy limit offset) as [e|ps];
    inversion H; subst; [done|]. by exists ps.
Qed.

(** What a [200] answer of [getProfiles] is made of. *)
Lemma getProfiles_ok_inv (rt : Runtime) (r : Request) (st st' : Store B) (resp : Response) :
  getProfiles B rt r st = (Some resp, st') ->
  status resp = http.StatusOK ->
  exists limit offset total profiles,
    queryInt (Query r) "limit" = Some limit
    /\ queryInt (Query r) "offset" = Some offset
    /\ payload resp = JSONList (mkProfileList (Z.of_nat (length profiles))
                                  limit offset total profiles).
Proof.
  unfold getProfiles. intros H Hs.
  destruct (parsePaging (Query r) (pagingVars rt) 0 0) as [[key err]|[limit offset]] eqn:Hp.
  { inversion H; subst. done. }
  apply parsePaging_ok in Hp as [Hl Ho].
  destruct (CountProfiles B st (identity_OrgID r)) as [e|total].
  { inversion H; subst. done. }
  destruct (total =? 0).
  - destruct (ServiceConfig B) as [e|ds]; [done|].
    destruct (InsertProfile B st _) as [[e|] st1].
    { inversion H; subst. done. }
    apply renderProfiles_inv in H as (ps & _ & _ & Hpay); [|done].
    by exists limit, offset, (total + 1), ps.
  - apply renderProfiles_inv in H as (ps & _ & _ & Hpay); [|done].
    by exists limit, offset, total, ps.
Qed.

(** C10: in every [200] answer of the profile listing, [count] is the
    length of [results], and [limit] and [offset] are the parsed query
    parameters ([0] for an absent parameter). *)
Theorem getProfiles_ok_fields (rt : Runtime) (r : Request) (st st' : Store B)
    (resp : Response) :
  getProfiles B rt r st = (Some resp, st') ->
  status resp = http.StatusOK ->
  exists l,
    payload resp = JSONList l
    /\ Count l = Z.of_nat (length (Results l))
    /\ queryInt (Query r) "limit" = Some (Limit l)
    /\ queryInt (Query r) "offset" = Some (Offset l).
Proof.
  intros H Hs.
  destruct (getProfiles_ok_inv rt r st st' resp H Hs)
    as (limit & offset & total & ps & Hl & Ho & Hpay).
  eexists. split; [exact Hpay|]. by cbn.
Qed.

Lemma queryInt_absent (q : gmap string (list string)) (key : string) :
  q !! key = None -> queryInt q key = Some 0.
Proof.
  intros H. unfold queryInt, url.Has. rewrite H.
  rewrite bool_decide_eq_false_2; [done|]. by intros [? ?].
Qed.

End HandlerFacts.

(** ** Updating the current profile *)

Lemma showToggle_inj (a b : bool) : db.showToggle a = db.showToggle b -> a = b.
Proof. by destruct a, b. Qed.

(** The equality check compares the four fields a caller can set. *)
Lemma Equal_spec (p q : Profile) :
  db.Equal p q = true
  <-> Active p = Active q /\ Insights p = Insights q
      /\ Remediations p = Remediations q /\ Compliance p = Compliance q.
Proof.
  destruct p as [i o a c ac ins rem com], q as [i' o' a' c' ac' ins' rem' com'].
  unfold db.Equal. cbn [Active Insights Remediations Compliance].
  destruct ac, ac', ins, ins', rem, rem', com, com'; vm_compute; intuition congruence.
Qed.

Section UpdateFacts.

Variable B : Backend.

(** C2: when the current profile with the requested fields put in is equal
    to the current profile, the answer is the current profile with status
    [304 Not Modified], and the store is left as it was. *)
Theorem createProfile_not_modified (rt : Runtime) (r : Request) (st : Store B)
    (requested current : Profile) :
  Body r = BodyProfile requested ->
  GetCurrentProfile B st (identity_OrgID r) = Ok current ->
  db.Equal (override (db.CopyProfile rt current) requested) current = true ->
  createProfile B rt r st
  = (Some (mkResponse http.StatusNotModified (JSONProfile current)), st).
Proof.
  intros Hb Hc He. unfold createProfile. by rewrite Hb, Hc, He.
Qed.

(** What a [201] answer of [createProfile] is made of. *)
Lemma createProfile_created_inv (rt : Runtime) (r : Request) (st st' : Store B)
    (resp : Response) :
  createProfile B rt r st = (Some resp, st') ->
  status resp = http.StatusCreated ->
  exists requested current,
    Body r = BodyProfile requested
    /\ GetCurrentProfile B st (identity_OrgID r) = Ok current
    /\ db.Equal (override (db.CopyProfile rt current) requested) current = false
    /\ InsertProfile B st (override (db.CopyProfile rt current) requested) = (None, st')
    /\ payload resp = JSONProfile (override (db.CopyProfile rt current) requested).
Proof.
  unfold createProfile. intros H Hs.
  destruct (Body r) as [| |requested]; try (inversion H; subst; done).
  destruct (GetCurrentProfile B st (identity_OrgID r)) as [e|current];
    [inversion H; subst; done|].
  destruct (db.Equal _ current) eqn:He; [inversion H; subst; done|].
  destruct (InsertProfile B st _) as [[e|] st1] eqn:Hi; inversion H; subst; [done|].
  by exists requested, current.
Qed.

(** C3: the version a successful update stores is the copy of the prior
    current version with [Active], [Insights], [Remediations] and
    [Compliance] taken from the request; the organization and the account
    are those of the prior current version, and the version ID and creation
    time are fresh. *)
Theorem createProfile_copy_on_write (rt : Runtime) (r : Request) (st st' : Store B)
    (resp : Response) :
  createProfile B rt r st = (Some resp, st') ->
  status resp = http.StatusCreated ->
  exists requested current newProfile,
    Body r = BodyProfile requested
    /\ GetCurrentProfile B st (identity_OrgID r) = Ok current
    /\ InsertProfile B st newProfile = (None, st')
    /\ payload resp = JSONProfile newProfile
    /\ Active newProfile = Active requested
    /\ Insights newProfile = Insights requested
    /\ Remediations newProfile = Remediations requested
    /\ Compliance newProfile = Compliance requested
    /\ OrgID newProfile = OrgID current
    /\ AccountID newProfile = AccountID current
    /\ ID newProfile = uuid_New rt
    /\ CreatedAt newProfile = time_Now rt.
Proof.
  intros H Hs.
  destruct (createProfile_created_inv rt r st st' resp H Hs)
    as (requested & current & Hb & Hc & _ & Hi & Hp).
  exists requested, current, (override (db.CopyProfile rt current) requested).
  by repeat split.
Qed.

Lemma override_agree (base p1 p2 : Profile) :
  Active p1 = Active p2 -> Insights p1 = Insights p2 ->
  Remediations p1 = Remediations p2 -> Compliance p1 = Compliance p2 ->
  override base p1 = override base p2.
Proof. unfold override. by intros -> -> -> ->. Qed.

(** C9: two update requests for the same organization whose decoded bodies
    agree on [Active], [Insights], [Remediations] and [Compliance] have the
    same outcome, answer and store, whatever else the bodies and the
    requests carry; and the organization and account of a stored new version
    are those of the current profile of the caller's organization. *)
Theorem createProfile_body_noninterference (rt : Runtime) (r1 r2 : Request)
    (st : Store B) (p1 p2 : Profile) :
  identity_OrgID r1 = identity_OrgID r2 ->
  Body r1 = BodyProfile p1 ->
  Body r2 = BodyProfile p2 ->
  Active p1 = Active p2 ->
  Insights p1 = Insights p2 ->
  Remediations p1 = Remediations p2 ->
  Compliance p1 = Compliance p2 ->
  createProfile B rt r1 st = createProfile B rt r2 st
  /\ (forall resp st',
        createProfile B rt r1 st = (Some resp, st') ->
        status resp = http.StatusCreated ->
        exists current newProfile,
          GetCurrentProfile B st (identity_OrgID r1) = Ok current
          /\ InsertProfile B st newProfile = (None, st')
          /\ OrgID newProfile = OrgID current
          /\ AccountID newProfile = AccountID current).
Proof.
  intros Ho Hb1 Hb2 Ha Hi Hr Hc. split.
  - unfold createProfile. rewrite Hb1, Hb2, Ho.
    destruct (GetCurrentProfile B st (identity_OrgID r2)) as [e|current]; [done|].
    by rewrite (override_agree _ p1 p2).
  - intros resp st' H Hs.
    destruct (createProfile_created_inv rt r1 st st' resp H Hs)
      as (requested & current & _ & Hcur & _ & Hins & _).
    by exists current, (override (db.CopyProfile rt current) requested).
Qed.

End UpdateFacts.

(** ** Status codes of failed requests *)

Section StatusFacts.

Variable B : Backend.

(** C4, as the handlers have it: an unparsable [limit] or [offset], a
    missing profile ID (the [id] URL parameter of [getProfile], the
    [profile_id] query parameter of [getPlaybook]) and an unreadable body
    are answered with [400 Bad Request] and leave the store alone; a
    profile lookup that fails, for a profile that does not exist as for any
    other reason, is answered with [500 Internal Server Error]. *)
Theorem caller_errors_status (rt : Runtime) (r : Request) (st : Store B) :
  ((queryInt (Query r) "limit" = None \/ queryInt (Query r) "offset" = None) ->
     exists msg cause,
       getProfiles B rt r st
       = (Some (mkResponse http.StatusBadRequest (Plain msg cause)), st))
  /\ (URLParam_id r = "" ->
        getProfile B rt r st
        = (Some (mkResponse http.StatusBadRequest (Plain "cannot get ID from URL" None)), st))
  /\ (url.Has (Query r) "profile_id" = false ->
        getPlaybook B r st
        = (Some (mkResponse http.StatusBadRequest
                   (Plain "cannot get profile_id query parameter" None)), st))
  /\ (Body r = BodyUnreadable ->
        createProfile B rt r st
        = (Some (mkResponse http.StatusBadRequest
                   (Plain "cannot read request body" (Some ErrBodyRead))), st))
  /\ (forall err,
        URLParam_id r <> "" -> URLParam_id r <> "current" ->
        GetProfile B st (URLParam_id r) = Err err ->
        getProfile B rt r st
        = (Some (mkResponse http.StatusInternalServerError
                   (Plain "cannot get profile with ID" (Some err))), st))
  /\ (forall err,
        url.Has (Query r) "profile_id" = true ->
        GetProfile B st (url.Get (Query r) "profile_id") = Err err ->
        getPlaybook B r st
        = (Some (mkResponse http.StatusInternalServerError
                   (Plain "cannot get profile with ID" (Some err))), st)).
Proof.
  repeat split.
  - intros H. apply (parsePaging_fails rt) in H as (key & err & H).
    unfold getProfiles. rewrite H. by eexists _, _.
  - intros H. unfold getProfile. by rewrite H, decide_True.
  - intros H. unfold getPlaybook. by rewrite H.
  - intros H. unfold createProfile. by rewrite H.
  - intros err H1 H2 H. unfold getProfile.
    rewrite decide_False by done. rewrite decide_False by done. by rewrite H.
  - intros err H1 H. unfold getPlaybook. by rewrite H1, H.
Qed.

(** The caller of the generator: a failed generation is answered with [500]
    and no playbook is sent. *)
Lemma getPlaybook_generation_fails (r : Request) (st : Store B) (profile : Profile)
    (err : error) :
  url.Has (Query r) "profile_id" = true ->
  GetProfile B st (url.Get (Query r) "profile_id") = Ok profile ->
  GeneratePlaybook B (db.StateConfig profile) = Err err ->
  getPlaybook B r st
  = (Some (mkResponse http.StatusInternalServerError
             (Plain "cannot generate playbook" (Some err))), st).
Proof. intros H1 H2 H3. unfold getPlaybook. by rewrite H1, H2, H3. Qed.

End StatusFacts.

(** ** Handlers only ever extend the store *)

Section Frame.

Variable B : Backend.
Variable extends : Store B -> Store B -> Prop.

Hypothesis extends_refl : forall st, extends st st.
Hypothesis insert_extends : forall st p, extends st (InsertProfile B st p).2.
Hypothesis getOrInsert_extends :
  forall st orgID p, extends st (GetOrInsertCurrentProfile B st orgID p).2.

Lemma renderProfiles_store (r : Request) (sortBy : string) (limit offset total : Z)
    (st : Store B) :
  (renderProfiles B r sortBy limit offset total st).2 = st.
Proof. unfold renderProfiles. by destruct (GetProfiles B st _ _ _ _). Qed.

Lemma getProfiles_extends (rt : Runtime) (r : Request) (st : Store B) :
  extends st (getProfiles B rt r st).2.
Proof.
  unfold getProfiles.
  destruct (parsePaging _ _ _ _) as [[key err]|[limit offset]]; [done|].
  destruct (CountProfiles B st _) as [e|total]; [done|].
  destruct (total =? 0); [|by rewrite renderProfiles_store].
  destruct (ServiceConfig B) as [e|ds]; [done|].
  pose proof (insert_extends st
    (db.NewProfile rt (identity_OrgID r) (identity_AccountNumber r) ds)) as H.
  destruct (InsertProfile B st _) as [[e|] st1]; [done|].
  by rewrite renderProfiles_store.
Qed.

Lemma getProfile_extends (rt : Runtime) (r : Request) (st : Store B) :
  extends st (getProfile B rt r st).2.
Proof.
  unfold getProfile.
  destruct (decide (URLParam_id r = "")) as [Hid|Hid]; [done|].
  destruct (decide (URLParam_id r = "current")) as [Hcur|Hcur].
  - destruct (ServiceConfig B) as [e|ds]; [done|].
    pose proof (getOrInsert_extends st (identity_OrgID r)
      (db.NewProfile rt (identity_OrgID r) (identity_AccountNumber r) ds)) as H.
    by destruct (GetOrInsertCurrentProfile B st _ _) as [[e|p] st1].
  - by destruct (GetProfile B st _).
Qed.

Lemma createProfile_extends (rt : Runtime) (r : Request) (st : Store B) :
  extends st (createProfile B rt r st).2.
Proof.
  unfold createProfile.
  destruct (Body r) as [| |requested]; [done|done|].
  destruct (GetCurrentProfile B st _) as [e|current]; [done|].
  destruct (db.Equal _ _); [done|].
  pose proof (insert_extends st (override (db.CopyProfile rt current) requested)) as H.
  by destruct (InsertProfile B st _) as [[e|] st1].
Qed.

Lemma getPlaybook_store (r : Request) (st : Store B) : (getPlaybook B r st).2 = st.
Proof.
  unfold getPlaybook.
  destruct (negb _); [done|].
  destruct (GetProfile B st _) as [e|profile]; [done|].
  by destruct (GeneratePlaybook B _).
Qed.

End Frame.

(** ** The in-memory store *)

Lemma appendsAtMostOne_prefix (st st' : list Profile) :
  appendsAtMostOne st st' -> st `prefix_of` st'.
Proof. intros [->|[p ->]]; [done|]. by apply prefix_app_r. Qed.

Lemma InsertProfile_appends (st : list Profile) (p : Profile) :
  appendsAtMostOne st (memstore.InsertProfile st p).2.
Proof.
  unfold memstore.InsertProfile.
  destruct (memstore.missingIdentity p); [by left|].
  destruct (memstore.knownID st (ID p)); [by left|].
  right. by exists p.
Qed.

Lemma GetOrInsertCurrentProfile_appends (st : list Profile) (orgID : string) (p : Profile) :
  appendsAtMostOne st (memstore.GetOrInsertCurrentProfile st orgID p).2.
Proof.
  unfold memstore.GetOrInsertCurrentProfile.
  destruct (memstore.currentOf st orgID); [by left|].
  pose proof (InsertProfile_appends st p) as H.
  by destruct (memstore.InsertProfile st p) as [[e|] st1].
Qed.

(** C8: stored profile versions are never modified or deleted: each of the
    handlers that write leaves the stored versions as they were or adds one
    version after them, and [getPlaybook] leaves the store as it was; so
    every version stored before a request is still stored after it,
    unchanged and at its place. *)
Theorem stored_versions_immutable (cfg : result (gmap string string))
    (rt : Runtime) (r : Request) (st : list Profile) :
  appendsAtMostOne st (getProfiles (memDB cfg) rt r st).2
  /\ appendsAtMostOne st (getProfile (memDB cfg) rt r st).2
  /\ appendsAtMostOne st (createProfile (memDB cfg) rt r st).2
  /\ (getPlaybook (memDB cfg) r st).2 = st
  /\ st `prefix_of` (getProfiles (memDB cfg) rt r st).2
  /\ st `prefix_of` (getProfile (memDB cfg) rt r st).2
  /\ st `prefix_of` (createProfile (memDB cfg) rt r st).2.
Proof.
  assert (H1 : appendsAtMostOne st (getProfiles (memDB cfg) rt r st).2).
  { apply (getProfiles_extends (memDB cfg) appendsAtMostOne); [by left|].
    apply InsertProfile_appends. }
  assert (H2 : appendsAtMostOne st (getProfile (memDB cfg) rt r st).2).
  { apply (getProfile_extends (memDB cfg) appendsAtMostOne); [by left|].
    apply GetOrInsertCurrentProfile_appends. }
  assert (H3 : appendsAtMostOne st (createProfile (memDB cfg) rt r st).2).
  { apply (createProfile_extends (memDB cfg) appendsAtMostOne); [by left|].
    apply InsertProfile_appends. }
  repeat split; try done; try by apply appendsAtMostOne_prefix.
  apply getPlaybook_store.
Qed.

Lemma CountProfiles_zero (st : list Profile) (orgID : string) :
  memstore.CountProfiles st orgID = Ok 0 <-> memstore.profilesOf st orgID = [].
Proof.
  unfold memstore.CountProfiles. split.
  - intros H. inversion H as [Hl].
    destruct (memstore.profilesOf st orgID); [done|]. cbn in Hl. lia.
  - by intros ->.
Qed.

Lemma currentOf_none (st : list Profile) (orgID : string) :
  memstore.profilesOf st orgID = [] -> memstore.currentOf st orgID = None.
Proof. unfold memstore.currentOf. by intros ->. Qed.

Lemma InsertProfile_fresh (st : list Profile) (p : Profile) :
  ID p <> "" -> OrgID p <> "" -> AccountID p <> "" -> ID p ∉ ID <$> st ->
  memstore.InsertProfile st p = (None, st ++ [p]).
Proof.
  intros H1 H2 H3 H4. unfold memstore.InsertProfile, memstore.missingIdentity, memstore.knownID.
  by rewrite !bool_decide_eq_false_2.
Qed.

Lemma profilesOf_snoc (st : list Profile) (p : Profile) :
  memstore.profilesOf (st ++ [p]) (OrgID p) = memstore.profilesOf st (OrgID p) ++ [p].
Proof.
  unfold memstore.profilesOf. rewrite filter_app. f_equal.
  by rewrite filter_cons_True.
Qed.


(** ** Concurrent first access *)

Section StepFacts.

Variable B : Backend.

(** The step machine is [getProfiles] cut at its store calls: three steps of
    a request running alone give the handler's answer and store. *)
Lemma runProfiles_getProfiles (rt : Runtime) (r : Request) (st : Store B) :
  runProfiles B 3 rt r Counting st
  = (Returned (getProfiles B rt r st).1, (getProfiles B rt r st).2).
Proof.
  unfold getProfiles. cbn [runProfiles stepProfiles].
  destruct (parsePaging _ _ _ _) as [[key err]|[limit offset]]; [done|].
  destruct (CountProfiles B st _) as [e|total]; [done|].
  destruct (total =? 0).
  - destruct (ServiceConfig B) as [e|ds]; [done|].
    cbn [stepProfiles].
    destruct (InsertProfile B st _) as [[e|] st1]; [done|].
    cbn [stepProfiles].
    by destruct (renderProfiles B r _ limit offset (total + 1) st1).
  - cbn [stepProfiles].
    by destruct (renderProfiles B r _ limit offset total st).
Qed.

End StepFacts.

(** C6, on the listing path: two listings for an org without a profile,
    served concurrently so that both count before either inserts, each find
    a total of zero and each insert a default profile: the store ends with
    two default profiles of the org, and both answers report a total of 1. *)
Theorem getProfiles_race_two_defaults :
  let B := memDB (Ok defaultState) in
  let dA := db.NewProfile rt1 "org1" "acct1" defaultState in
  let dB := db.NewProfile rt2 "org1" "acct1" defaultState in
  exists lA lB,
    interleave B [true; false; true; false; true; false]
      rt1 (listRequest ∅) rt2 (listRequest ∅) Counting Counting []
    = (Returned (Some (mkResponse http.StatusOK (JSONList lA))),
       Returned (Some (mkResponse http.StatusOK (JSONList lB))),
       [dA; dB])
    /\ Total lA = 1 /\ Total lB = 1
    /\ memstore.CountProfiles [dA; dB] "org1" = Ok 2.
Proof. cbv zeta. eexists _, _. split; [vm_compute; reflexivity|]. by vm_compute. Qed.

(** The sibling path: fetching ["current"] goes through the one
    insert-if-absent operation of the store, so two first fetches, in either
    order, leave one default profile. *)
Lemma getProfile_current_once (ds : gmap string string) (rtA rtB : Runtime)
    (rA rB : Request) (st : list Profile) :
  identity_OrgID rA = identity_OrgID rB ->
  URLParam_id rA = "current" -> URLParam_id rB = "current" ->
  memstore.CountProfiles st (identity_OrgID rA) = Ok 0 ->
  identity_OrgID rA <> "" -> identity_AccountNumber rA <> "" ->
  uuid_New rtA <> "" -> uuid_New rtA ∉ ID <$> st ->
  let d := db.NewProfile rtA (identity_OrgID rA) (identity_AccountNumber rA) ds in
  getProfile (memDB (Ok ds)) rtB rB (getProfile (memDB (Ok ds)) rtA rA st).2
  = (Some (mkResponse http.StatusOK (JSONProfile d)), st ++ [d]).
Proof.
  intros Horg HA HB Hzero H1 H2 H3 H4 d.
  pose proof (proj1 (CountProfiles_zero _ _) Hzero) as Hnone.
  unfold getProfile. rewrite HA, HB. cbn [decide].
  rewrite !(decide_False (P := "current" = "")) by done.
  rewrite !(decide_True (P := "current" = "current")) by done.
  cbn [ServiceConfig GetOrInsertCurrentProfile memDB].
  unfold memstore.GetOrInsertCurrentProfile at 2.
  rewrite (currentOf_none _ _ Hnone).
  fold d. rewrite (InsertProfile_fresh st d) by done. cbn [snd].
  unfold memstore.GetOrInsertCurrentProfile, memstore.currentOf.
  rewrite <- Horg. change (identity_OrgID rA) with (OrgID d) at 1.
  rewrite profilesOf_snoc. change (OrgID d) with (identity_OrgID rA).
  by rewrite Hnone.
Qed.

(** ** Concrete requests *)

(** C4 fails as stated: fetching the playbook, or the profile, of a profile
    ID that is not stored is answered with status 500, and so is an update
    whose body does not decode; neither status is a 4xx. *)
Lemma missing_profile_is_server_error :
  let B := memDB (Ok defaultState) in
  memstore.GetProfile [stored1] "nope" = Err NotFoundError
  /\ getPlaybook B (playbookRequest {["profile_id" := ["nope"]]}) [stored1]
     = (Some (mkResponse 500 (Plain "cannot get profile with ID" (Some NotFoundError))),
        [stored1])
  /\ getProfile B rt1 (fetchRequest "nope") [stored1]
     = (Some (mkResponse 500 (Plain "cannot get profile with ID" (Some NotFoundError))),
        [stored1])
  /\ createProfile B rt1 (mkRequest "org1" "acct1" ∅ "" BodyMalformed) [stored1]
     = (Some (mkResponse 500 (Plain "cannot unmarshal data" (Some ErrJSON))), [stored1])
  /\ is4xx 500 = false.
Proof. cbv zeta. repeat split; by vm_compute. Qed.


Lemma createProfile_not_modified_witness :
  createProfile (memDB (Ok defaultState)) rt1 (updateRequest "org1" stored1) [stored1]
  = (Some (mkResponse http.StatusNotModified (JSONProfile stored1)), [stored1]).
Proof.
  apply (createProfile_not_modified (memDB (Ok defaultState)) rt1
           (updateRequest "org1" stored1) [stored1] stored1 stored1);
    reflexivity.
Defined.

Lemma createProfile_copy_on_write_witness :
  exists requested current newProfile,
    Body (updateRequest "org1" tamperedBody) = BodyProfile requested
    /\ GetCurrentProfile (memDB (Ok defaultState)) [stored1] "org1" = Ok current
    /\ InsertProfile (memDB (Ok defaultState)) [stored1] newProfile
       = (None, [stored1; created1])
    /\ payload (mkResponse http.StatusCreated (JSONProfile created1)) = JSONProfile newProfile
    /\ Active newProfile = Active requested
    /\ Insights newProfile = Insights requested
    /\ Remediations newProfile = Remediations requested
    /\ Compliance newProfile = Compliance requested
    /\ OrgID newProfile = OrgID current
    /\ AccountID newProfile = AccountID current
    /\ ID newProfile = uuid_New rt1
    /\ CreatedAt newProfile = time_Now rt1.
Proof.
  apply (createProfile_copy_on_write (memDB (Ok defaultState)) rt1
           (updateRequest "org1" tamperedBody) [stored1] [stored1; created1]
           (mkResponse http.StatusCreated (JSONProfile created1)));
    reflexivity.
Defined.

Lemma caller_errors_status_witness :
  let B := memDB (Ok defaultState) in
  (exists msg cause,
      getProfiles B rt1 badRequest [stored1]
      = (Some (mkResponse http.StatusBadRequest (Plain msg cause)), [stored1]))
  /\ getProfile B rt1 badRequest [stored1]
     = (Some (mkResponse http.StatusBadRequest (Plain "cannot get ID from URL" None)),
        [stored1])
  /\ getPlaybook B badRequest [stored1]
     = (Some (mkResponse http.StatusBadRequest
                (Plain "cannot get profile_id query parameter" None)), [stored1])
  /\ createProfile B rt1 badRequest [stored1]
     = (Some (mkResponse http.StatusBadRequest
                (Plain "cannot read request body" (Some ErrBodyRead))), [stored1])
  /\ getProfile B rt1 lookupRequest [stored1]
     = (Some (mkResponse http.StatusInternalServerError
                (Plain "cannot get profile with ID" (Some NotFoundError))), [stored1])
  /\ getPlaybook B lookupRequest [stored1]
     = (Some (mkResponse http.StatusInternalServerError
                (Plain "cannot get profile with ID" (Some NotFoundError))), [stored1]).
Proof.
  intros B.
  destruct (caller_errors_status B rt1 badRequest [stored1]) as (H1 & H2 & H3 & H4 & _ & _).
  destruct (caller_errors_status B rt1 lookupRequest [stored1]) as (_ & _ & _ & _ & H5 & H6).
  split; [apply H1; left; reflexivity|].
  split; [apply H2; reflexivity|].
  split; [apply H3; reflexivity|].
  split; [apply H4; reflexivity|].
  split; [apply H5; [discriminate|discriminate|reflexivity]|].
  apply H6; reflexivity.
Defined.

Lemma createProfile_body_noninterference_witness :
  let B := memDB (Ok defaultState) in
  createProfile B rt1 (updateRequest "org1" plainBody) [stored1]
  = createProfile B rt1 (updateRequest "org1" tamperedBody) [stored1]
  /\ (forall resp st',
        createProfile B rt1 (updateRequest "org1" plainBody) [stored1] = (Some resp, st') ->
        status resp = http.StatusCreated ->
        exists current newProfile,
          GetCurrentProfile B [stored1] "org1" = Ok current
          /\ InsertProfile B [stored1] newProfile = (None, st')
          /\ OrgID newProfile = OrgID current
          /\ AccountID newProfile = AccountID current).
Proof.
  intros B.
  apply (createProfile_body_noninterference B rt1 (updateRequest "org1" plainBody)
           (updateRequest "org1" tamperedBody) [stored1] plainBody tamperedBody);
    reflexivity.
Defined.

Lemma getProfiles_ok_fields_witness :
  exists l,
    payload (mkResponse http.StatusOK
               (JSONList (mkProfileList 1 5 0 1 [stored1]))) = JSONList l
    /\ Count l = Z.of_nat (length (Results l))
    /\ queryInt (Query pageRequest) "limit" = Some (Limit l)
    /\ queryInt (Query pageRequest) "offset" = Some (Offset l).
Proof.
  apply (getProfiles_ok_fields (memDB (Ok defaultState)) rt1 pageRequest
           [stored1] [stored1]
           (mkResponse http.StatusOK (JSONList (mkProfileList 1 5 0 1 [stored1]))));
    reflexivity.
Defined.

(** The update of the specification's second scenario: switching
    remediations on is one transition and one task. *)
Example diff_one_toggle :
  diff db.knownSchema (db.StateConfig allOff)
    (db.StateConfig (override allOff (mkProfile "" "" "" 0 true false true false)))
  = [mkTransition "remediations" "false" "true"]
  /\ generate db.knownSchema "localhost" [mkTransition "remediations" "false" "true"]
     = Ok (mkPlaybook "localhost" [mkTask "remediations" "true"]).
Proof. split; by vm_compute. Qed.

(** A profile whose state map has no transition from the default state has
    no playbook: the generator fails with [EmptyDiffError] and the handler
    sends none. *)
Example getPlaybook_empty_diff :
  getPlaybook (memDB (Ok defaultState)) (playbookRequest {["profile_id" := ["v0"]]}) [allOff]
  = (Some (mkResponse http.StatusInternalServerError
             (Plain "cannot generate playbook" (Some EmptyDiffError))), [allOff]).
Proof.
  apply getPlaybook_generation_fails with (profile := allOff); by vm_compute.
Qed.

(** [strconv.ParseInt] on a few inputs: signs, leading zeros, the two ends
    of the 64-bit range, and what is not a decimal number. *)
Example ParseInt_samples :
  strconv.ParseInt "+012" = Ok 12
  /\ strconv.ParseInt "-9223372036854775808" = Ok (-9223372036854775808)
  /\ strconv.ParseInt "9223372036854775807" = Ok 9223372036854775807
  /\ strconv.ParseInt "9223372036854775808" = Err ErrRange
  /\ strconv.ParseInt "" = Err ErrSyntax
  /\ strconv.ParseInt "-" = Err ErrSyntax
  /\ strconv.ParseInt "1_000" = Err ErrSyntax
  /\ strconv.ParseInt "abc" = Err ErrSyntax.
Proof. repeat split; by vm_compute. Qed.

(** * Further properties of the handlers *)

(** ** The listing *)

Section ListingFacts.

Variable B : Backend.

(** Every way [getProfiles] can end, in terms of what the services
    returned. *)
Lemma getProfiles_cases (rt : Runtime) (r : Request) (st : Store B) :
  let org := identity_OrgID r in
  (exists key err,
      parsePaging (Query r) (pagingVars rt) 0 0 = inl (key, err)
      /\ getProfiles B rt r st
         = (Some (mkResponse http.StatusBadRequest
                    (Plain ("cannot parse '" +:+ key +:+ "'") (Some err))), st))
  \/ exists limit offset,
      parsePaging (Query r) (pagingVars rt) 0 0 = inr (limit, offset)
      /\ ((exists err,
              CountProfiles B st org = Err err
              /\ getProfiles B rt r st
                 = (Some (mkResponse http.StatusInternalServerError
                            (Plain "cannot count profiles" (Some err))), st))
          \/ (exists total,
                 CountProfiles B st org = Ok total /\ total <> 0
                 /\ getProfiles B rt r st
                    = renderProfiles B r (sortByOf r) limit offset total st)
          \/ (CountProfiles B st org = Ok 0
              /\ ((exists err, ServiceConfig B = Err err
                              /\ getProfiles B rt r st = (None, st))
                  \/ exists ds,
                      ServiceConfig B = Ok ds
                      /\ let d := db.NewProfile rt org (identity_AccountNumber r) ds in
                         ((exists err st1,
                              InsertProfile B st d = (Some err, st1)
                              /\ getProfiles B rt r st
                                 = (Some (mkResponse http.StatusInternalServerError
                                            (Plain "cannot insert new profile" (Some err))),
                                    st1))
                          \/ exists st1,
                              InsertProfile B st d = (None, st1)
                              /\ getProfiles B rt r st
                                 = renderProfiles B r (sortByOf r) limit offset 1 st1)))).
Proof.
  intros org. unfold getProfiles, sortByOf. fold org.
  destruct (parsePaging _ _ _ _) as [[key err]|[limit offset]].
  { left. by exists key, err. }
  right. exists limit, offset. split; [done|].
  destruct (CountProfiles B st org) as [e|total]; [left; by exists e|].
  right. destruct (total =? 0) eqn:Hz.
  - apply Z.eqb_eq in Hz as ->. right. split; [done|].
    destruct (ServiceConfig B) as [e|ds]; [left; by exists e|].
    right. exists ds. split; [done|]. cbv zeta.
    destruct (InsertProfile B st _) as [[e|] st1].
    + left. by exists e, st1.
    + right. by exists st1.
  - apply Z.eqb_neq in Hz. left. by exists total.
Qed.

Lemma renderProfiles_cases (r : Request) (sortBy : string) (limit offset total : Z)
    (st : Store B) :
  (exists err,
      GetProfiles B st (identity_OrgID r) sortBy limit offset = Err err
      /\ renderProfiles B r sortBy limit offset total st
         = (Some (mkResponse http.StatusInternalServerError
                    (Plain "cannot get profiles" (Some err))), st))
  \/ exists profiles,
      GetProfiles B st (identity_OrgID r) sortBy limit offset = Ok profiles
      /\ renderProfiles B r sortBy limit offset total st
         = (Some (mkResponse http.StatusOK
                    (JSONList (mkProfileList (Z.of_nat (length profiles))
                                 limit offset total profiles))), st).
Proof.
  unfold renderProfiles.
  destruct (GetProfiles B st _ _ _ _) as [e|ps]; [left; by exists e|right; by exists ps].
Qed.

End ListingFacts.

Section ListingAnswers.

Variable B : Backend.

(** X1: a [200] answer of the listing holds exactly the profiles the store
    returns for the caller's organization, the requested (or default) sort
    order and the parsed limit and offset, read after the default profile
    was inserted when the count was zero; [total] is the count of the
    store, or [1] when that count was zero. *)
Theorem getProfiles_ok_results (rt : Runtime) (r : Request) (st st' : Store B)
    (resp : Response) :
  getProfiles B rt r st = (Some resp, st') ->
  status resp = http.StatusOK ->
  exists limit offset total profiles,
    queryInt (Query r) "limit" = Some limit
    /\ queryInt (Query r) "offset" = Some offset
    /\ CountProfiles B st (identity_OrgID r) = Ok total
    /\ GetProfiles B st' (identity_OrgID r) (sortByOf r) limit offset = Ok profiles
    /\ payload resp
       = JSONList (mkProfileList (Z.of_nat (length profiles)) limit offset
                     (if total =? 0 then 1 else total) profiles)
    /\ (total <> 0 -> st' = st)
    /\ (total = 0 ->
        exists ds,
          ServiceConfig B = Ok ds
          /\ InsertProfile B st
               (db.NewProfile rt (identity_OrgID r) (identity_AccountNumber r) ds)
             = (None, st')).
Proof.
  intros H Hs.
  destruct (getProfiles_cases B rt r st)
    as [(key & err & _ & E)|(limit & offset & Hp & Hc)].
  { rewrite E in H. inversion H; subst. done. }
  apply parsePaging_ok in Hp as [Hl Ho].
  destruct Hc as [(err & _ & E)|[(total & Hc & Hnz & E)|(Hc & Hd)]].
  - rewrite E in H. inversion H; subst. done.
  - rewrite E in H.
    apply renderProfiles_inv in H as (ps & Hg & -> & Hpay); [|done].
    exists limit, offset, total, ps.
    rewrite (proj2 (Z.eqb_neq total 0) Hnz). by repeat split.
  - destruct Hd as [(err & _ & E)|(ds & Hcfg & Hi)]; [by rewrite E in H|].
    cbv zeta in Hi.
    destruct Hi as [(err & st1 & _ & E)|(st1 & Hins & E)].
    + rewrite E in H. inversion H; subst. done.
    + rewrite E in H.
      apply renderProfiles_inv in H as (ps & Hg & -> & Hpay); [|done].
      exists limit, offset, 0, ps. repeat split; try done.
      intros _. by exists ds.
Qed.

(** X2: the one write of the listing is the insert of the default profile,
    and it is attempted only after the store counted zero profiles for the
    caller's organization; whenever the count is not zero, fails, or a
    paging parameter is rejected, the store is left as it was. *)
Theorem getProfiles_writes_only_default (rt : Runtime) (r : Request) (st : Store B) :
  (getProfiles B rt r st).2 <> st ->
  CountProfiles B st (identity_OrgID r) = Ok 0
  /\ ~ pagingFault r
  /\ exists ds,
      ServiceConfig B = Ok ds
      /\ (getProfiles B rt r st).2
         = (InsertProfile B st
              (db.NewProfile rt (identity_OrgID r) (identity_AccountNumber r) ds)).2.
Proof.
  intros Hne.
  destruct (getProfiles_cases B rt r st)
    as [(key & err & _ & E)|(limit & offset & Hp & Hc)].
  { by rewrite E in Hne. }
  assert (Hnf : ~ pagingFault r).
  { apply parsePaging_ok in Hp as [Hl Ho]. unfold pagingFault.
    rewrite Hl, Ho. by intros [?|?]. }
  destruct Hc as [(err & _ & E)|[(total & Hc & Hnz & E)|(Hc & Hd)]].
  - by rewrite E in Hne.
  - rewrite E, renderProfiles_store in Hne. done.
  - split; [done|]. split; [done|].
    destruct Hd as [(err & _ & E)|(ds & Hcfg & Hi)]; [by rewrite E in Hne|].
    exists ds. split; [done|]. cbv zeta in Hi.
    destruct Hi as [(err & st1 & Hins & E)|(st1 & Hins & E)]; rewrite E, Hins.
    + done.
    + by rewrite renderProfiles_store.
Qed.

(** X3: the listing returns without rendering any answer in exactly one
    situation: the paging parameters were accepted, the store counted zero
    profiles, and the configured default state does not decode; nothing is
    written then. *)
Theorem getProfiles_silent_return (rt : Runtime) (r : Request) (st : Store B) :
  (getProfiles B rt r st).1 = None
  <-> ~ pagingFault r
      /\ CountProfiles B st (identity_OrgID r) = Ok 0
      /\ exists err, ServiceConfig B = Err err.
Proof.
  destruct (getProfiles_cases B rt r st)
    as [(key & err & Hp & E)|(limit & offset & Hp & Hc)].
  { rewrite E. split; [done|]. intros (Hnf & _).
    destruct Hnf. apply (parsePaging_fails rt). by exists key, err. }
  assert (Hnf : ~ pagingFault r).
  { apply parsePaging_ok in Hp as [Hl Ho]. unfold pagingFault.
    rewrite Hl, Ho. by intros [?|?]. }
  destruct Hc as [(err & Hc & E)|[(total & Hc & Hnz & E)|(Hc & Hd)]].
  - rewrite E, Hc. split; [done|]. by intros (_ & ? & _).
  - rewrite E, Hc. split.
    + destruct (renderProfiles_cases B r (sortByOf r) limit offset total st)
        as [(e & _ & E')|(ps & _ & E')]; by rewrite E'.
    + intros (_ & Hz & _). inversion Hz. done.
  - destruct Hd as [(err & Hcfg & E)|(ds & Hcfg & Hi)].
    + rewrite E. split; [|done]. intros _. split; [done|]. split; [done|]. by exists err.
    + cbv zeta in Hi. rewrite Hcfg.
      split; [|by intros (_ & _ & ? & ?)].
      destruct Hi as [(err & st1 & _ & E)|(st1 & _ & E)]; rewrite E; [done|].
      destruct (renderProfiles_cases B r (sortByOf r) limit offset 1 st1)
        as [(e & _ & E')|(ps & _ & E')]; by rewrite E'.
Qed.

End ListingAnswers.

(** ** Statuses and payloads *)

(** Walks every path of a handler other than the listing. *)
Ltac handler_paths :=
  unfold getProfile, createProfile, getPlaybook, answers, errorAnswer;
  unfold render.RenderPlain, render.RenderJSON, render.RenderRaw;
  repeat (case_match; simplify_eq/=).

Section AnswerFacts.

Variable B : Backend.

(** X4: [400 Bad Request] is answered for the caller's faults and for
    nothing else: by the listing exactly when a paging parameter is present
    and unparsable, by [getProfile] exactly when the [id] URL parameter is
    empty, by [createProfile] exactly when the body cannot be read, by
    [getPlaybook] exactly when the query has no [profile_id]; no failure of
    the store is ever answered with [400]. *)
Theorem bad_request_iff (rt : Runtime) (r : Request) (st : Store B) :
  (answers (getProfiles B rt r st) http.StatusBadRequest <-> pagingFault r)
  /\ (answers (getProfile B rt r st) http.StatusBadRequest <-> URLParam_id r = "")
  /\ (answers (createProfile B rt r st) http.StatusBadRequest <-> Body r = BodyUnreadable)
  /\ (answers (getPlaybook B r st) http.StatusBadRequest
      <-> url.Has (Query r) "profile_id" = false).
Proof.
  split; [|split; [|split]].
  - split.
    + intros (resp & H & Hs).
      destruct (getProfiles_cases B rt r st)
        as [(key & err & Hp & E)|(limit & offset & Hp & Hc)].
      { apply (parsePaging_fails rt). by exists key, err. }
      exfalso.
      destruct Hc as [(err & _ & E)|[(total & _ & _ & E)|(_ & Hd)]].
      * rewrite E in H. by simplify_eq/=.
      * destruct (renderProfiles_cases B r (sortByOf r) limit offset total st)
          as [(e & _ & E')|(ps & _ & E')]; rewrite E, E' in H; by simplify_eq/=.
      * destruct Hd as [(err & _ & E)|(ds & _ & Hi)]; [rewrite E in H; by simplify_eq/=|].
        cbv zeta in Hi.
        destruct Hi as [(err & st1 & _ & E)|(st1 & _ & E)];
          [rewrite E in H; by simplify_eq/=|].
        destruct (renderProfiles_cases B r (sortByOf r) limit offset 1 st1)
          as [(e & _ & E')|(ps & _ & E')]; rewrite E, E' in H; by simplify_eq/=.
    + intros Hf. apply (parsePaging_fails rt) in Hf as (key & err & Hp).
      unfold getProfiles. rewrite Hp. by eexists.
  - split.
    + intros (resp & H & Hs). revert H Hs. handler_paths; by intros; simplify_eq/=.
    + intros Hid. unfold getProfile. rewrite Hid. by eexists.
  - split.
    + intros (resp & H & Hs). revert H Hs. handler_paths; by intros; simplify_eq/=.
    + intros Hb. unfold createProfile. rewrite Hb. by eexists.
  - split.
    + intros (resp & H & Hs). revert H Hs. handler_paths; intros; simplify_eq/=;
        by destruct (url.Has (Query r) "profile_id").
    + intros Hq. unfold getPlaybook. rewrite Hq. by eexists.
Qed.

(** X5: an answer is either the data with a success status or a plain-text
    message with status [400] or [500], never a mix: the listing answers a
    JSON list with [200], [getProfile] a profile with [200], [createProfile]
    a profile with [201] or [304], [getPlaybook] a YAML document with [200];
    and these three handlers always render an answer. *)
Theorem answer_kinds (rt : Runtime) (r : Request) (st : Store B) :
  (forall resp, (getProfiles B rt r st).1 = Some resp ->
     (status resp = http.StatusOK /\ exists l, payload resp = JSONList l)
     \/ errorAnswer resp)
  /\ (exists resp, (getProfile B rt r st).1 = Some resp
        /\ ((status resp = http.StatusOK /\ exists p, payload resp = JSONProfile p)
            \/ errorAnswer resp))
  /\ (exists resp, (createProfile B rt r st).1 = Some resp
        /\ (((status resp = http.StatusCreated \/ status resp = http.StatusNotModified)
             /\ exists p, payload resp = JSONProfile p)
            \/ errorAnswer resp))
  /\ (exists resp, (getPlaybook B r st).1 = Some resp
        /\ ((status resp = http.StatusOK
             /\ exists data, payload resp = Raw "application/x-yaml" data)
            \/ errorAnswer resp)).
Proof.
  split; [|split; [|split]].
  - intros resp H.
    destruct (getProfiles_cases B rt r st)
      as [(key & err & Hp & E)|(limit & offset & Hp & Hc)].
    { rewrite E in H. simplify_eq/=. right. split; [by left|by eexists _, _]. }
    assert (Hr : forall total st1,
      (renderProfiles B r (sortByOf r) limit offset total st1).1 = Some resp ->
      (status resp = http.StatusOK /\ exists l, payload resp = JSONList l)
      \/ errorAnswer resp).
    { intros total st1 Hr.
      destruct (renderProfiles_cases B r (sortByOf r) limit offset total st1)
        as [(e & _ & E')|(ps & _ & E')]; rewrite E' in Hr; simplify_eq/=.
      - right. split; [by right|by eexists _, _].
      - left. split; [done|by eexists]. }
    destruct Hc as [(err & _ & E)|[(total & _ & _ & E)|(_ & Hd)]].
    + rewrite E in H. simplify_eq/=. right. split; [by right|by eexists _, _].
    + rewrite E in H. by apply (Hr total st).
    + destruct Hd as [(err & _ & E)|(ds & _ & Hi)]; [by rewrite E in H|].
      cbv zeta in Hi. destruct Hi as [(err & st1 & _ & E)|(st1 & _ & E)].
      * rewrite E in H. simplify_eq/=. right. split; [by right|by eexists _, _].
      * rewrite E in H. by apply (Hr 1 st1).
  - handler_paths; eexists; (split; [reflexivity|]); cbn;
      first [left; split; [done|by eexists]
            |right; split; [by left|by eexists _, _]
            |right; split; [by right|by eexists _, _]].
  - handler_paths; eexists; (split; [reflexivity|]); cbn;
      first [left; split; [by left|by eexists]
            |left; split; [by right|by eexists]
            |right; split; [by left|by eexists _, _]
            |right; split; [by right|by eexists _, _]].
  - handler_paths; eexists; (split; [reflexivity|]); cbn;
      first [left; split; [done|by eexists]
            |right; split; [by left|by eexists _, _]
            |right; split; [by right|by eexists _, _]].
Qed.

End AnswerFacts.

(** ** What the handlers read of a request *)

Lemma parseDigits_range (s : string) (n z : Z) :
  0 <= n <= strconv.maxUint64 ->
  strconv.parseDigits s n = Ok z ->
  0 <= z <= strconv.maxUint64.
Proof.
  revert n. induction s as [|c s IH]; intros n Hn H; cbn [strconv.parseDigits] in H.
  - by simplify_eq.
  - destruct (strconv.digit c) as [d|]; [|done].
    destruct (strconv.maxUint64 / 10 + 1 <=? n); [done|].
    set (n10 := (n * 10) mod 2 ^ 64) in H.
    set (n1 := (n10 + d) mod 2 ^ 64) in H.
    destruct (n1 <? n10); [done|]. cbn [orb] in H.
    destruct (Z.ltb_spec strconv.maxUint64 n1) as [|Hle]; [done|].
    apply (IH n1); [|done]. split; [|done].
    subst n1. apply Z.mod_pos_bound. lia.
Qed.

Lemma ParseInt_range (s : string) (z : Z) :
  strconv.ParseInt s = Ok z -> inInt64 z.
Proof.
  unfold strconv.ParseInt, inInt64. destruct s as [|c rest]; [done|].
  set (neg := bool_decide (c = "-"%char)).
  set (s1 := if bool_decide (c = "+"%char) || neg then rest else String c rest).
  assert (Hchecked : forall un,
    0 <= un ->
    (if negb neg && (2 ^ 63 <=? un) then Err ErrRange
     else if neg && (2 ^ 63 <? un) then Err ErrRange
          else Ok (if neg then - un else un)) = Ok z ->
    - 2 ^ 63 <= z < 2 ^ 63).
  { intros un Hun H. destruct neg; cbn [negb andb] in H.
    - destruct (Z.ltb_spec (2 ^ 63) un); [done|]. simplify_eq. lia.
    - destruct (Z.leb_spec (2 ^ 63) un); [done|]. simplify_eq. lia. }
  destruct (strconv.ParseUint s1) as [e|un] eqn:Hu.
  - destruct e; try done. apply Hchecked. unfold strconv.maxUint64. lia.
  - apply Hchecked. unfold strconv.ParseUint in Hu.
    assert (strconv.parseDigits s1 0 = Ok un) as Hd by (by destruct s1).
    apply parseDigits_range in Hd; [lia|]. unfold strconv.maxUint64. lia.
Qed.

Lemma queryInt_range (q : gmap string (list string)) (key : string) (z : Z) :
  queryInt q key = Some z -> inInt64 z.
Proof.
  unfold queryInt. destruct (url.Has q key).
  - destruct (strconv.ParseInt (url.Get q key)) as [e|i] eqn:Hp; [done|].
    intros ?; simplify_eq. by apply (ParseInt_range _ _ Hp).
  - intros ?; simplify_eq. unfold inInt64. lia.
Qed.

Section RequestFacts.

Variable B : Backend.


(** X7: the [limit] and [offset] of every [200] answer of the listing lie
    in the range of a 64-bit integer, so the conversion of the parsed
    [int64] to [int] loses nothing. *)
Theorem getProfiles_paging_in_int64 (rt : Runtime) (r : Request) (st st' : Store B)
    (resp : Response) :
  getProfiles B rt r st = (Some resp, st') ->
  status resp = http.StatusOK ->
  exists l,
    payload resp = JSONList l /\ inInt64 (Limit l) /\ inInt64 (Offset l).
Proof.
  intros H Hs.
  destruct (getProfiles_ok_inv B rt r st st' resp H Hs)
    as (limit & offset & total & ps & Hl & Ho & Hpay).
  eexists. split; [exact Hpay|]. cbn [Limit Offset].
  split; by eapply queryInt_range.
Qed.

Lemma parsePaging_sameParam (rt : Runtime) (q1 q2 : gmap string (list string)) :
  sameParam q1 q2 "limit" -> sameParam q1 q2 "offset" ->
  parsePaging q1 (pagingVars rt) 0 0 = parsePaging q2 (pagingVars rt) 0 0.
Proof.
  intros [Hl1 Hl2] [Ho1 Ho2]. unfold pagingVars.
  destruct (limit_first rt); cbn [parsePaging]; by rewrite Hl1, Hl2, Ho1, Ho2.
Qed.

(** X8: the listing reads of a request only the organization and account
    of the identity and the first values of [sort_by], [limit] and
    [offset]: two requests that agree on these have the same outcome, so
    further values of a repeated parameter, other parameters, the URL
    parameter and the body change nothing. *)
Theorem getProfiles_reads_only (rt : Runtime) (r1 r2 : Request) (st : Store B) :
  identity_OrgID r1 = identity_OrgID r2 ->
  identity_AccountNumber r1 = identity_AccountNumber r2 ->
  sameParam (Query r1) (Query r2) "sort_by" ->
  sameParam (Query r1) (Query r2) "limit" ->
  sameParam (Query r1) (Query r2) "offset" ->
  getProfiles B rt r1 st = getProfiles B rt r2 st.
Proof.
  intros Ho Ha [Hs1 Hs2] Hl Hf.
  unfold getProfiles, renderProfiles.
  by rewrite (parsePaging_sameParam rt _ _ Hl Hf), Ho, Ha, Hs1, Hs2.
Qed.

(** X9: a profile fetched by its ID is not scoped to the caller: for an
    [id] other than ["current"], the outcome of [getProfile] is the same for
    every identity (and every query, body and run), and the store is left
    as it was. *)
Theorem getProfile_by_id_unscoped (rt1 rt2 : Runtime) (r1 r2 : Request) (st : Store B) :
  URLParam_id r1 = URLParam_id r2 ->
  URLParam_id r1 <> "current" ->
  getProfile B rt1 r1 st = getProfile B rt2 r2 st
  /\ (getProfile B rt1 r1 st).2 = st.
Proof.
  intros Hid Hnc. unfold getProfile. rewrite <- Hid.
  destruct (decide (URLParam_id r1 = "")) as [He|Hne]; [done|].
  destruct (decide (URLParam_id r1 = "current")) as [Hc|_]; [done|].
  by destruct (GetProfile B st (URLParam_id r1)).
Qed.

(** X10: [getPlaybook] reads of a request only the first [profile_id] of
    the query, whoever the caller is, and never writes; a [200] answer is
    the playbook generated from the state of the profile the store returns
    for that ID. *)
Theorem getPlaybook_reads_only (r1 r2 : Request) (st : Store B) :
  sameParam (Query r1) (Query r2) "profile_id" ->
  getPlaybook B r1 st = getPlaybook B r2 st
  /\ (getPlaybook B r1 st).2 = st
  /\ (forall resp,
        (getPlaybook B r1 st).1 = Some resp ->
        status resp = http.StatusOK ->
        exists profile playbook,
          GetProfile B st (url.Get (Query r1) "profile_id") = Ok profile
          /\ GeneratePlaybook B (db.StateConfig profile) = Ok playbook
          /\ payload resp = Raw "application/x-yaml" playbook).
Proof.
  intros [H1 H2]. split; [|split].
  - unfold getPlaybook. by rewrite H1, H2.
  - apply getPlaybook_store.
  - intros resp H Hs. unfold getPlaybook in H.
    unfold render.RenderPlain, render.RenderRaw in H.
    destruct (negb (url.Has (Query r1) "profile_id")); [by simplify_eq/=|].
    destruct (GetProfile B st _) as [e|profile] eqn:Hp; [by simplify_eq/=|].
    destruct (GeneratePlaybook B _) as [e|playbook] eqn:Hg; simplify_eq/=.
    by exists profile, playbook.
Qed.

(** X11: the one write of [createProfile] is the insert of the overridden
    copy of the current profile, attempted only when the body decoded, the
    store returned a current profile and the equality check failed: in
    particular an update for an organization without a current profile
    stores nothing. *)
Theorem createProfile_writes_only_new_version (rt : Runtime) (r : Request)
    (st : Store B) :
  (createProfile B rt r st).2 <> st ->
  exists requested current,
    Body r = BodyProfile requested
    /\ GetCurrentProfile B st (identity_OrgID r) = Ok current
    /\ db.Equal (override (db.CopyProfile rt current) requested) current = false
    /\ (createProfile B rt r st).2
       = (InsertProfile B st (override (db.CopyProfile rt current) requested)).2.
Proof.
  unfold createProfile. intros H.
  destruct (Body r) as [| |requested]; [done|done|].
  destruct (GetCurrentProfile B st (identity_OrgID r)) as [e|current]; [done|].
  destruct (db.Equal _ current) eqn:He; [done|].
  exists requested, current. repeat split; try done.
  by destruct (InsertProfile B st _) as [[e|] st1].
Qed.

End RequestFacts.

(** ** Listings served concurrently *)

Section ScheduleFacts.

Variable B : Backend.

Lemma runProfiles_returned (n : nat) (rt : Runtime) (r : Request)
    (resp : option Response) (st : Store B) :
  runProfiles B n rt r (Returned resp) st = (Returned resp, st).
Proof. induction n as [|n IH]; [done|]. cbn [runProfiles stepProfiles]. exact IH. Qed.

Lemma runProfiles_add (n m : nat) (rt : Runtime) (r : Request) (pc : ListingState)
    (st : Store B) :
  runProfiles B (n + m) rt r pc st
  = runProfiles B m rt r (runProfiles B n rt r pc st).1 (runProfiles B n rt r pc st).2.
Proof.
  revert pc st. induction n as [|n IH]; intros pc st; [done|].
  cbn [Nat.add runProfiles]. destruct (stepProfiles B rt r pc st) as [pc1 st1].
  apply IH.
Qed.

(** Three steps are enough: a request that runs alone for three steps or
    more has returned with the answer and the store of [getProfiles]. *)
Lemma runProfiles_enough (n : nat) (rt : Runtime) (r : Request) (st : Store B) :
  (3 <= n)%nat ->
  runProfiles B n rt r Counting st
  = (Returned (getProfiles B rt r st).1, (getProfiles B rt r st).2).
Proof.
  intros Hn. replace n with (3 + (n - 3))%nat by lia.
  rewrite runProfiles_add, runProfiles_getProfiles. cbn [fst snd].
  apply runProfiles_returned.
Qed.

Lemma readOnlyFrom_step (rt : Runtime) (r : Request) (pc : ListingState) (st : Store B) :
  readOnlyFrom B rt r pc st ->
  (stepProfiles B rt r pc st).2 = st
  /\ readOnlyFrom B rt r (stepProfiles B rt r pc st).1 st.
Proof.
  intros H.
  assert (H1 : (stepProfiles B rt r pc st).2 = st).
  { specialize (H 1%nat). cbn [runProfiles] in H.
    by destruct (stepProfiles B rt r pc st). }
  split; [done|]. intros n. specialize (H (S n)). cbn [runProfiles] in H.
  destruct (stepProfiles B rt r pc st) as [pc1 st1]. cbn [fst snd] in H1 |- *.
  rewrite H1 in H. exact H.
Qed.

Lemma readOnlyFrom_counting (rt : Runtime) (r : Request) (st : Store B) :
  CountProfiles B st (identity_OrgID r) <> Ok 0 ->
  readOnlyFrom B rt r Counting st.
Proof.
  intros Hc n. destruct n as [|n]; [done|]. cbn [runProfiles stepProfiles].
  destruct (parsePaging _ _ _ _) as [[key err]|[limit offset]];
    [by rewrite runProfiles_returned|].
  destruct (CountProfiles B st _) as [e|total]; [by rewrite runProfiles_returned|].
  destruct (total =? 0) eqn:Hz; [apply Z.eqb_eq in Hz; by subst|].
  destruct n as [|n]; [done|]. cbn [runProfiles stepProfiles].
  pose proof (renderProfiles_store B r
    (if url.Has (Query r) "sort_by" then url.Get (Query r) "sort_by"
     else "created_at:desc") limit offset total st) as Hs.
  destruct (renderProfiles B r _ limit offset total st) as [resp st1].
  cbn [snd] in Hs. subst. by rewrite runProfiles_returned.
Qed.

Lemma stepsOf_cons (who b : bool) (sched : list bool) :
  stepsOf who (b :: sched)
  = if decide (b = who) then S (stepsOf who sched) else stepsOf who sched.
Proof. unfold stepsOf. rewrite filter_cons. by destruct (decide (b = who)). Qed.

Lemma interleave_read_only (sched : list bool) (rtA : Runtime) (rA : Request)
    (rtB : Runtime) (rB : Request) (a b : ListingState) (st : Store B) :
  readOnlyFrom B rtA rA a st ->
  readOnlyFrom B rtB rB b st ->
  interleave B sched rtA rA rtB rB a b st
  = ((runProfiles B (stepsOf true sched) rtA rA a st).1,
     (runProfiles B (stepsOf false sched) rtB rB b st).1, st).
Proof.
  revert a b. induction sched as [|w sched IH]; intros a b Ha Hb; [done|].
  rewrite !stepsOf_cons. destruct w; cbn [interleave].
  - rewrite decide_True by done. rewrite decide_False by done.
    destruct (readOnlyFrom_step rtA rA a st Ha) as [Hs Ha1].
    cbn [runProfiles].
    destruct (stepProfiles B rtA rA a st) as [a1 st1]. cbn [fst snd] in *. subst st1.
    by apply IH.
  - rewrite decide_False by done. rewrite decide_True by done.
    destruct (readOnlyFrom_step rtB rB b st Hb) as [Hs Hb1].
    cbn [runProfiles].
    destruct (stepProfiles B rtB rB b st) as [b1 st1]. cbn [fst snd] in *. subst st1.
    by apply IH.
Qed.

(** X12: two listings served concurrently for organizations whose profile
    count is not zero cannot disturb each other: under every schedule that
    lets both run to their end, each gets the answer it would get alone and
    the store is left as it was. *)
Theorem concurrent_listings_independent (sched : list bool)
    (rtA : Runtime) (rA : Request) (rtB : Runtime) (rB : Request) (st : Store B) :
  CountProfiles B st (identity_OrgID rA) <> Ok 0 ->
  CountProfiles B st (identity_OrgID rB) <> Ok 0 ->
  (3 <= stepsOf true sched)%nat ->
  (3 <= stepsOf false sched)%nat ->
  interleave B sched rtA rA rtB rB Counting Counting st
  = (Returned (getProfiles B rtA rA st).1, Returned (getProfiles B rtB rB st).1, st).
Proof.
  intros HA HB HnA HnB.
  rewrite interleave_read_only by (by apply readOnlyFrom_counting).
  by rewrite !runProfiles_enough.
Qed.

Lemma interleave_app (s1 s2 : list bool) (rtA : Runtime) (rA : Request)
    (rtB : Runtime) (rB : Request) (a b : ListingState) (st : Store B) :
  interleave B (s1 ++ s2) rtA rA rtB rB a b st
  = let '(a1, b1, st1) := interleave B s1 rtA rA rtB rB a b st in
    interleave B s2 rtA rA rtB rB a1 b1 st1.
Proof.
  revert a b st. induction s1 as [|w s1 IH]; intros a b st.
  - cbn. done.
  - destruct w; cbn [app interleave].
    + destruct (stepProfiles B rtA rA a st) as [a1 st1]. apply IH.
    + destruct (stepProfiles B rtB rB b st) as [b1 st1]. apply IH.
Qed.

Lemma interleave_first (n : nat) (rtA : Runtime) (rA : Request)
    (rtB : Runtime) (rB : Request) (a b : ListingState) (st : Store B) :
  interleave B (replicate n true) rtA rA rtB rB a b st
  = ((runProfiles B n rtA rA a st).1, b, (runProfiles B n rtA rA a st).2).
Proof.
  revert a st. induction n as [|n IH]; intros a st; [done|].
  cbn [replicate interleave runProfiles].
  destruct (stepProfiles B rtA rA a st) as [a1 st1]. apply IH.
Qed.

Lemma interleave_second (n : nat) (rtA : Runtime) (rA : Request)
    (rtB : Runtime) (rB : Request) (a b : ListingState) (st : Store B) :
  interleave B (replicate n false) rtA rA rtB rB a b st
  = (a, (runProfiles B n rtB rB b st).1, (runProfiles B n rtB rB b st).2).
Proof.
  revert b st. induction n as [|n IH]; intros b st; [done|].
  cbn [replicate interleave runProfiles].
  destruct (stepProfiles B rtB rB b st) as [b1 st1]. apply IH.
Qed.

(** X13: a schedule that runs the first listing to its end before the
    second starts is the composition of the two handlers: the second is
    served on the store the first has left. *)
Theorem serial_listings (n m : nat)
    (rtA : Runtime) (rA : Request) (rtB : Runtime) (rB : Request) (st : Store B) :
  (3 <= n)%nat ->
  (3 <= m)%nat ->
  interleave B (replicate n true ++ replicate m false) rtA rA rtB rB Counting Counting st
  = (Returned (getProfiles B rtA rA st).1,
     Returned (getProfiles B rtB rB (getProfiles B rtA rA st).2).1,
     (getProfiles B rtB rB (getProfiles B rtA rA st).2).2).
Proof.
  intros Hn Hm.
  rewrite interleave_app, interleave_first, runProfiles_enough by done.
  cbn [fst snd]. by rewrite interleave_second, runProfiles_enough.
Qed.

End ScheduleFacts.

(** ** The further properties on concrete requests *)

Lemma getProfiles_ok_results_witness :
  exists limit offset total profiles,
    queryInt (Query pageRequest) "limit" = Some limit
    /\ queryInt (Query pageRequest) "offset" = Some offset
    /\ CountProfiles (memDB (Ok defaultState)) [stored1] (identity_OrgID pageRequest)
       = Ok total
    /\ GetProfiles (memDB (Ok defaultState)) [stored1] (identity_OrgID pageRequest)
         (sortByOf pageRequest) limit offset = Ok profiles
    /\ payload pageAnswer
       = JSONList (mkProfileList (Z.of_nat (length profiles)) limit offset
                     (if total =? 0 then 1 else total) profiles)
    /\ (total <> 0 -> [stored1] = [stored1])
    /\ (total = 0 ->
        exists ds,
          ServiceConfig (memDB (Ok defaultState)) = Ok ds
          /\ InsertProfile (memDB (Ok defaultState)) [stored1]
               (db.NewProfile rt1 (identity_OrgID pageRequest)
                  (identity_AccountNumber pageRequest) ds)
             = (None, [stored1])).
Proof.
  apply (getProfiles_ok_results (memDB (Ok defaultState)) rt1 pageRequest
           [stored1] [stored1] pageAnswer); reflexivity.
Defined.

Lemma getProfiles_writes_only_default_witness :
  memstore.CountProfiles [] "org1" = Ok 0
  /\ ~ pagingFault (listRequest ∅)
  /\ exists ds,
      ServiceConfig (memDB (Ok defaultState)) = Ok ds
      /\ (getProfiles (memDB (Ok defaultState)) rt1 (listRequest ∅) []).2
         = (memstore.InsertProfile [] (db.NewProfile rt1 "org1" "acct1" ds)).2.
Proof.
  apply (getProfiles_writes_only_default (memDB (Ok defaultState)) rt1 (listRequest ∅) []).
  vm_compute. discriminate.
Defined.

Lemma getProfiles_silent_return_witness :
  (getProfiles (memDB (Err ErrJSON)) rt1 (listRequest ∅) []).1 = None.
Proof.
  apply (getProfiles_silent_return (memDB (Err ErrJSON)) rt1 (listRequest ∅) []).
  split; [|split].
  - intros [H|H]; vm_compute in H; discriminate.
  - reflexivity.
  - exists ErrJSON. reflexivity.
Defined.

Lemma bad_request_iff_witness :
  let B := memDB (Ok defaultState) in
  answers (getProfiles B rt1 badRequest [stored1]) http.StatusBadRequest
  /\ answers (getProfile B rt1 badRequest [stored1]) http.StatusBadRequest
  /\ answers (createProfile B rt1 badRequest [stored1]) http.StatusBadRequest
  /\ answers (getPlaybook B badRequest [stored1]) http.StatusBadRequest
  /\ pagingFault bothBadRequest.
Proof.
  intros B.
  destruct (bad_request_iff B rt1 badRequest [stored1]) as (H1 & H2 & H3 & H4).
  destruct (bad_request_iff B rt1 bothBadRequest [stored1]) as (H5 & _).
  split; [apply H1; left; reflexivity|].
  split; [apply H2; reflexivity|].
  split; [apply H3; reflexivity|].
  split; [apply H4; reflexivity|].
  apply H5. eexists. split; reflexivity.
Defined.

Lemma answer_kinds_witness :
  (status pageAnswer = http.StatusOK /\ exists l, payload pageAnswer = JSONList l)
  \/ errorAnswer pageAnswer.
Proof.
  destruct (answer_kinds (memDB (Ok defaultState)) rt1 pageRequest [stored1]) as (H & _).
  apply H. reflexivity.
Defined.


(** That the order is visible at all: with both parameters unparsable, the
    message names the one that was ranged over first. *)
Example paging_order_visible :
  (getProfiles (memDB (Ok defaultState)) rt1 bothBadRequest []).1
  = Some (mkResponse 400 (Plain "cannot parse 'limit'" (Some ErrSyntax)))
  /\ (getProfiles (memDB (Ok defaultState)) rt1swapped bothBadRequest []).1
     = Some (mkResponse 400 (Plain "cannot parse 'offset'" (Some ErrRange))).
Proof. split; by vm_compute. Qed.

Lemma getProfiles_paging_in_int64_witness :
  exists l, payload pageAnswer = JSONList l /\ inInt64 (Limit l) /\ inInt64 (Offset l).
Proof.
  apply (getProfiles_paging_in_int64 (memDB (Ok defaultState)) rt1 pageRequest
           [stored1] [stored1] pageAnswer); reflexivity.
Defined.

Lemma getProfiles_reads_only_witness :
  getProfiles (memDB (Ok defaultState)) rt1 repeatedRequest [stored1]
  = getProfiles (memDB (Ok defaultState)) rt1 pageRequest [stored1].
Proof.
  apply (getProfiles_reads_only (memDB (Ok defaultState)) rt1 repeatedRequest pageRequest
           [stored1]);
    first [reflexivity | split; reflexivity].
Defined.

Lemma getProfile_by_id_unscoped_witness :
  let B := memDB (Ok defaultState) in
  getProfile B rt1 byIDRequest [stored1] = getProfile B rt2 otherTenantRequest [stored1]
  /\ (getProfile B rt1 byIDRequest [stored1]).2 = [stored1].
Proof.
  intros B.
  apply (getProfile_by_id_unscoped B rt1 rt2 byIDRequest otherTenantRequest [stored1]).
  - reflexivity.
  - discriminate.
Defined.

Lemma getPlaybook_reads_only_witness :
  let B := memDB (Ok defaultState) in
  let r := playbookRequest {["profile_id" := ["v0"]]} in
  getPlaybook B r [stored1] = getPlaybook B otherPlaybookRequest [stored1]
  /\ (getPlaybook B r [stored1]).2 = [stored1]
  /\ exists profile playbook,
      GetProfile B [stored1] (url.Get (Query r) "profile_id") = Ok profile
      /\ GeneratePlaybook B (db.StateConfig profile) = Ok playbook
      /\ payload playbookAnswer = Raw "application/x-yaml" playbook.
Proof.
  intros B r.
  destruct (getPlaybook_reads_only B r otherPlaybookRequest [stored1]) as (H1 & H2 & H3).
  - split; reflexivity.
  - split; [exact H1|]. split; [exact H2|].
    apply H3; reflexivity.
Defined.

Lemma createProfile_writes_only_new_version_witness :
  let B := memDB (Ok defaultState) in
  let r := updateRequest "org1" tamperedBody in
  exists requested current,
    Body r = BodyProfile requested
    /\ GetCurrentProfile B [stored1] (identity_OrgID r) = Ok current
    /\ db.Equal (override (db.CopyProfile rt1 current) requested) current = false
    /\ (createProfile B rt1 r [stored1]).2
       = (InsertProfile B [stored1] (override (db.CopyProfile rt1 current) requested)).2.
Proof.
  intros B r.
  apply (createProfile_writes_only_new_version B rt1 r [stored1]).
  vm_compute. discriminate.
Defined.

Lemma concurrent_listings_independent_witness :
  let B := memDB (Ok defaultState) in
  interleave B [true; false; false; true; true; false]
    rt1 pageRequest rt2 (listRequest ∅) Counting Counting [stored1]
  = (Returned (getProfiles B rt1 pageRequest [stored1]).1,
     Returned (getProfiles B rt2 (listRequest ∅) [stored1]).1, [stored1]).
Proof.
  intros B.
  apply (concurrent_listings_independent B [true; false; false; true; true; false]).
  - vm_compute. discriminate.
  - vm_compute. discriminate.
  - vm_compute. lia.
  - vm_compute. lia.
Defined.

Lemma serial_listings_witness :
  let B := memDB (Ok defaultState) in
  interleave B (replicate 3 true ++ replicate 4 false)
    rt1 (listRequest ∅) rt2 pageRequest Counting Counting []
  = (Returned (getProfiles B rt1 (listRequest ∅) []).1,
     Returned (getProfiles B rt2 pageRequest (getProfiles B rt1 (listRequest ∅) []).2).1,
     (getProfiles B rt2 pageRequest (getProfiles B rt1 (listRequest ∅) []).2).2).
Proof.
  intros B.
  apply (serial_listings B 3 4 rt1 (listRequest ∅) rt2 pageRequest []); lia.
Defined.

(** ** The outcomes of an update *)

Section UpdateOutcomes.

Variable B : Backend.

(** X14: the exact conditions of each answer of [createProfile].  It answers
    [304] exactly when the body decoded, the store returned a current
    profile and the equality check passed; [201] exactly when the check
    failed and the insert succeeded; and [500] exactly when the body did not
    decode, the store returned no current profile (so an organization
    without a profile cannot be updated), or the insert failed. *)
Theorem createProfile_outcomes (rt : Runtime) (r : Request) (st : Store B) :
  (answers (createProfile B rt r st) http.StatusNotModified
   <-> exists requested current,
        Body r = BodyProfile requested
        /\ GetCurrentProfile B st (identity_OrgID r) = Ok current
        /\ db.Equal (override (db.CopyProfile rt current) requested) current = true)
  /\ (answers (createProfile B rt r st) http.StatusCreated
      <-> exists requested current,
           Body r = BodyProfile requested
           /\ GetCurrentProfile B st (identity_OrgID r) = Ok current
           /\ db.Equal (override (db.CopyProfile rt current) requested) current = false
           /\ (InsertProfile B st (override (db.CopyProfile rt current) requested)).1
              = None)
  /\ (answers (createProfile B rt r st) http.StatusInternalServerError
      <-> Body r = BodyMalformed
          \/ exists requested,
              Body r = BodyProfile requested
              /\ ((exists err, GetCurrentProfile B st (identity_OrgID r) = Err err)
                  \/ exists current err,
                      GetCurrentProfile B st (identity_OrgID r) = Ok current
                      /\ db.Equal (override (db.CopyProfile rt current) requested) current
                         = false
                      /\ (InsertProfile B st
                            (override (db.CopyProfile rt current) requested)).1
                         = Some err)).
Proof.
  unfold createProfile, answers.
  unfold render.RenderPlain, render.RenderJSON.
  destruct (Body r) as [| |requested].
  { repeat split; try (intros (resp & H & Hs); by simplify_eq/=);
      try (by intros (? & ? & ? & _)).
    intros [?|(? & ? & _)]; done. }
  { repeat split; try (intros (resp & H & Hs); by simplify_eq/=);
      try (by intros (? & ? & ? & _)).
    - intros _. by left.
    - intros _. by eexists. }
  destruct (GetCurrentProfile B st (identity_OrgID r)) as [e|current].
  { repeat split; try (intros (resp & H & Hs); by simplify_eq/=);
      try (by intros (? & ? & _ & ? & _)).
    - intros _. right. exists requested. split; [done|]. left. by exists e.
    - intros _. by eexists. }
  destruct (db.Equal _ current) eqn:He.
  { repeat split; try (intros (resp & H & Hs); by simplify_eq/=).
    - intros _. by exists requested, current.
    - intros _. by eexists.
    - intros (rq & cur & Hb & Hc & He' & _). simplify_eq. congruence.
    - intros [?|(rq & Hb & [(err & Hc)|(cur & err & Hc & He' & _)])];
        simplify_eq; congruence. }
  destruct (InsertProfile B st _) as [[e|] st1] eqn:Hi.
  - repeat split; try (intros (resp & H & Hs); by simplify_eq/=).
    + intros (rq & cur & Hb & Hc & He'). simplify_eq. congruence.
    + intros (rq & cur & Hb & Hc & He' & Hi'). simplify_eq. by rewrite Hi in Hi'.
    + intros _. right. exists requested. split; [done|]. right.
      exists current, e. by rewrite Hi.
    + intros _. by eexists.
  - repeat split; try (intros (resp & H & Hs); by simplify_eq/=).
    + intros (rq & cur & Hb & Hc & He'). simplify_eq. congruence.
    + intros _. exists requested, current. by rewrite Hi.
    + intros _. by eexists.
    + intros [?|(rq & Hb & [(err & Hc)|(cur & err & Hc & He' & Hi')])];
        simplify_eq. by rewrite Hi in Hi'.
Qed.

End UpdateOutcomes.

Lemma createProfile_outcomes_witness :
  let B := memDB (Ok defaultState) in
  answers (createProfile B rt1 (updateRequest "org1" stored1) [stored1])
    http.StatusNotModified
  /\ answers (createProfile B rt1 (updateRequest "org1" tamperedBody) [stored1])
       http.StatusCreated
  /\ answers (createProfile B rt1 (updateRequest "org2" tamperedBody) [stored1])
       http.StatusInternalServerError.
Proof.
  intros B.
  destruct (createProfile_outcomes B rt1 (updateRequest "org1" stored1) [stored1])
    as (H1 & _ & _).
  destruct (createProfile_outcomes B rt1 (updateRequest "org1" tamperedBody) [stored1])
    as (_ & H2 & _).
  destruct (createProfile_outcomes B rt1 (updateRequest "org2" tamperedBody) [stored1])
    as (_ & _ & H3).
  split; [|split].
  - apply H1. exists stored1, stored1. repeat split; reflexivity.
  - apply H2. exists tamperedBody, stored1. repeat split; reflexivity.
  - apply H3. right. exists tamperedBody. split; [reflexivity|].
    left. exists NotFoundError. reflexivity.
Defined.
